(** * The Cube.js model editor server (cube-editor/server.js)

    A shallow embedding of the Express server that keeps the model
    definitions of a Cube.js deployment in memory ([currentModels]),
    persists them as a Kubernetes ConfigMap document and drives [kubectl]
    through the deployment steps, together with the browser side validation
    ([validateModel] of cube-editor/script.js).

    Conventions of the embedding.
    - A JavaScript string is a [string]; the patterns searched for are ASCII,
      so searching bytes and searching UTF-16 units agree.
    - A JavaScript object used as a dictionary is the list of its own
      enumerable properties in the order [Object.keys] reports them
      (module [JsObject]). Its prototype is [Object.prototype]: reading a
      name the object does not own finds the member of the prototype of
      that name, and assigning a string to [__proto__] stores nothing.
    - Names and texts are strings, as the editor sends them.
    - The handlers run in a monad that threads the process and its
      surroundings, records the effects in a trace, and carries a thrown
      [Error] by its message (module-level section [Server]). *)

From Stdlib Require Import String Ascii List Bool Arith NArith Lia.
From Stdlib Require Import DecimalString.
Import ListNotations.
Local Open Scope string_scope.
Local Open Scope list_scope.

(** ** JavaScript strings *)

Module JsString.

(** [s.startsWith(p)] *)
Fixpoint startsWith (p s : string) : bool :=
  match p, s with
  | EmptyString, _ => true
  | String _ _, EmptyString => false
  | String a p', String b s' => Ascii.eqb a b && startsWith p' s'
  end.

(** [s.includes(p)]: [p] occurs somewhere in [s]. *)
Fixpoint includes (p s : string) : bool :=
  startsWith p s ||
  match s with
  | EmptyString => false
  | String _ s' => includes p s'
  end.

(** The suffix of [s] after its first [n] characters. *)
Fixpoint drop (n : nat) (s : string) : string :=
  match n, s with
  | O, _ => s
  | S _, EmptyString => EmptyString
  | S n', String _ s' => drop n' s'
  end.

(** [s.replace(p, r)] for a string pattern [p]: only the first occurrence
    of [p] is replaced. *)
Fixpoint replace (p r s : string) : string :=
  if startsWith p s then r ++ drop (String.length p) s
  else match s with
       | EmptyString => EmptyString
       | String c s' => String c (replace p r s')
       end.

(** JavaScript truthiness of a string value: every string but the empty
    one is truthy. *)
Definition truthy (s : string) : bool :=
  match s with
  | EmptyString => false
  | String _ _ => true
  end.

(** The character [U+0022], written by its code. *)
Definition dquote : string := String (ascii_of_nat 34) EmptyString.

(** [String(n)] for a non-negative integer. *)
Definition of_nat (n : nat) : string := NilEmpty.string_of_uint (Nat.to_uint n).

End JsString.

(** ** JavaScript objects used as dictionaries *)

Module JsObject.

(** The own enumerable string-valued properties, in [Object.keys] order:
    array indices in ascending order first, then the other keys in the
    order of their creation. *)
Definition obj := list (string * string).

Definition is_digit (c : ascii) : bool :=
  let n := nat_of_ascii c in ((48 <=? n)%nat && (n <=? 57)%nat)%bool.

Fixpoint digits_value (s : string) (acc : N) : option N :=
  match s with
  | EmptyString => Some acc
  | String c s' =>
      if is_digit c
      then digits_value s' (acc * 10 + N.of_nat (nat_of_ascii c - 48))%N
      else None
  end.

(** A property key is an array index when it is the canonical decimal
    form of an integer below [2^32 - 1]. *)
Definition array_index (k : string) : option N :=
  match k with
  | EmptyString => None
  | String c rest =>
      if Ascii.eqb c "0"%char
      then match rest with EmptyString => Some 0%N | _ => None end
      else match digits_value k 0 with
           | Some n => if (n <? 4294967295)%N then Some n else None
           | None => None
           end
  end.

Definition keys (o : obj) : list string := map fst o.

(** The own property [k] of [o], [None] when [o] owns none. *)
Fixpoint get (k : string) (o : obj) : option string :=
  match o with
  | [] => None
  | (k', v) :: o' => if String.eqb k k' then Some v else get k o'
  end.

Definition has (k : string) (o : obj) : bool :=
  match get k o with Some _ => true | None => false end.

(** Assignment to an existing property keeps its place. *)
Fixpoint update (k v : string) (o : obj) : obj :=
  match o with
  | [] => []
  | (k', v') :: o' =>
      if String.eqb k k' then (k', v) :: o' else (k', v') :: update k v o'
  end.

(** A new array index goes among the indices, by its value. *)
Fixpoint insert_index (i : N) (k v : string) (o : obj) : obj :=
  match o with
  | [] => [(k, v)]
  | (k', v') :: o' =>
      match array_index k' with
      | Some j =>
          if (j <? i)%N then (k', v') :: insert_index i k v o'
          else (k, v) :: o
      | None => (k, v) :: o
      end
  end.

(** Defining or overwriting the own property [k]: what [o[k] = v] does
    for every key but [__proto__]. *)
Definition set (k v : string) (o : obj) : obj :=
  if has k o then update k v o
  else match array_index k with
       | Some i => insert_index i k v o
       | None => o ++ [(k, v)]
       end.

(** [delete o[k]] *)
Definition delete (k : string) (o : obj) : obj :=
  filter (fun kv => negb (String.eqb k (fst kv))) o.

(** The names of the members an object inherits from [Object.prototype]:
    eleven functions and the accessor [__proto__], which reads as the
    prototype itself. *)
Definition Object_prototype : list string :=
  [ "constructor"; "__defineGetter__"; "__defineSetter__"; "hasOwnProperty";
    "__lookupGetter__"; "__lookupSetter__"; "isPrototypeOf";
    "propertyIsEnumerable"; "toString"; "valueOf"; "__proto__";
    "toLocaleString" ].

Definition inherited (k : string) : bool :=
  existsb (String.eqb k) Object_prototype.

(** What an expression [o[k]] evaluates to: a string the object owns, a
    member of [Object.prototype], or [undefined]. *)
Inductive Value :=
| Text (s : string)
| Member (name : string)
| Undefined.

(** [o[k]] as an expression: the own property if there is one, the
    inherited member otherwise. *)
Definition lookup (k : string) (o : obj) : Value :=
  match get k o with
  | Some v => Text v
  | None => if inherited k then Member k else Undefined
  end.

(** JavaScript truthiness of a value: the members of the prototype are
    functions and an object, which are truthy. *)
Definition truthy_value (v : Value) : bool :=
  match v with
  | Text s => JsString.truthy s
  | Member _ => true
  | Undefined => false
  end.

(** [o[k] = v] as a statement, for a string [v]. When the object owns no
    [__proto__], an assignment to that name reaches the setter of
    [Object.prototype], which ignores a value that is neither an object nor
    [null]: nothing is stored. Every other assignment defines or overwrites
    the own property. *)
Definition assign (k v : string) (o : obj) : obj :=
  if String.eqb k "__proto__" && negb (has k o) then o else set k v o.

(** Every key names one property. *)
Definition wf (o : obj) : Prop := NoDup (keys o).

End JsObject.

Import JsString.
Import JsObject.

(** ** The persisted document and the surroundings of the process *)

(** The ConfigMap document as [yaml.load] returns it and [yaml.dump]
    writes it: the identity header and the flat [data] object ([None] when
    the document has no [data]). *)
Record ConfigMap := {
  apiVersion : string;
  kind : string;
  metadata_name : string;
  metadata_namespace : string;
  data : option obj
}.

(** What reading [CONFIGMAP_PATH] gives: [fs.readFileSync] or [yaml.load]
    throws, or [yaml.load] returns a document ([None] for an empty one).
    The file is kept in parsed form: [yaml.load] is taken to read back the
    document [yaml.dump] wrote. *)
Inductive File :=
| Unreadable (message : string)
| Parsed (doc : option ConfigMap).

(** The commands the server hands to [child_process.exec]. *)
Inductive Command :=
| KubectlApply
| RolloutRestart
| GetDeploymentYaml
| PatchAddMount (modelName : string)
| RolloutStatus
| GetDeploymentJson
| PatchRemoveMount (mountIndex : nat).

(** The outcome of a command: [inl] the message of the [Error] the promise
    is rejected with, [inr] the standard output it resolves to. *)
Definition Outcome := (string + string)%type.

(** Everything the server reaches outside itself. [Outside] is the state of
    the machine and the cluster; [exec] runs a shell command line against it
    and the persisted document; [writeFileSync_error] is the message of the
    [Error] a write of the document would throw; [new_Function] is the
    message of the [SyntaxError] of [new Function(code)];
    [volumeMounts_of] reads
    [JSON.parse(s).spec.template.spec.containers[0].volumeMounts] as the
    list of the [mountPath]s, or the message of what it throws. *)
Class Runtime := {
  Outside : Type;
  CONFIGMAP_PATH : string;
  exec : string -> File -> Outside -> Outcome * Outside;
  writeFileSync_error : Outside -> option string;
  new_Function : string -> option string;
  volumeMounts_of : string -> string + list string
}.

(** The in-memory map, the persisted document and the outside. *)
Record World `{Runtime} := {
  currentModels : obj;
  file : File;
  outside : Outside
}.

(** What a handler does that can be seen from outside its body. [MemSet]
    is the assignment statement [currentModels[name] = text], whatever it
    stores. *)
Inductive Event :=
| MemSet (name text : string)
| MemDelete (name : string)
| FileWrite (doc : ConfigMap)
| Exec (c : Command) (r : Outcome).

(** One entry of the [steps] array of a deployment. *)
Definition Step := (string * string)%type.

(** The responses of the endpoints: [NotFound] is the 404 and
    [ServerError] the 500 with [success: false]; the others are 200 with
    [success: true], except [Validation], which carries its [success].
    [MemberOk] is the 200 of [GET /api/models/:name] whose [model] is not a
    text but the member of [Object.prototype] of that name, which
    [res.json] leaves out when it is a function and writes as an empty
    object when it is the prototype. *)
Inductive Response :=
| ModelsOk (models : obj)
| ModelOk (model : string)
| MemberOk (member : string)
| NotFound (message : string)
| Validation (success : bool) (message : string)
| DeployOk (message : string) (steps : list Step)
| DeleteOk (message : string)
| ServerError (message : string).

Section Server.

Context `{RT : Runtime}.

Definition NAMESPACE : string := "stcs".
Definition CONFIGMAP_NAME : string := "cube-models".

(** *** The monad of the handlers

    A computation takes the world and gives back a value or the message of
    a thrown [Error], the world it leaves and the events it caused. What
    was done before a throw stays done. *)
Definition M (A : Type) : Type := World -> (string + A) * World * list Event.

Definition ret {A} (a : A) : M A := fun w => (inr a, w, []).

Definition throw {A} (message : string) : M A := fun w => (inl message, w, []).

Definition bind {A B} (m : M A) (f : A -> M B) : M B :=
  fun w =>
    match m w with
    | (inl e, w1, t1) => (inl e, w1, t1)
    | (inr a, w1, t1) =>
        let '(r, w2, t2) := f a w1 in (r, w2, t1 ++ t2)
    end.

(** [try { m } catch (error) { h error.message }] *)
Definition try_catch {A} (m : M A) (h : string -> M A) : M A :=
  fun w =>
    match m w with
    | (inl e, w1, t1) =>
        let '(r, w2, t2) := h e w1 in (r, w2, t1 ++ t2)
    | (inr a, w1, t1) => (inr a, w1, t1)
    end.

Notation "x <- m ;; k" := (bind m (fun x => k))
  (at level 61, m at next level, right associativity).
Notation "m ;; k" := (bind m (fun _ => k))
  (at level 61, right associativity).

Fixpoint forEach {A} (l : list A) (f : A -> M unit) : M unit :=
  match l with
  | [] => ret tt
  | a :: l' => f a ;; forEach l' f
  end.

(** Reading [currentModels]. *)
Definition models : M obj := fun w => (inr (currentModels w), w, []).

(** [currentModels[name] = text] *)
Definition assign_model (name text : string) : M unit :=
  fun w =>
    (inr tt,
     {| currentModels := assign name text (currentModels w);
        file := file w; outside := outside w |},
     [MemSet name text]).

(** [delete currentModels[name]] *)
Definition delete_model (name : string) : M unit :=
  fun w =>
    (inr tt,
     {| currentModels := delete name (currentModels w);
        file := file w; outside := outside w |},
     [MemDelete name]).

(** [yaml.load(fs.readFileSync(CONFIGMAP_PATH, 'utf8'))] *)
Definition read_configMap : M (option ConfigMap) :=
  fun w =>
    match file w with
    | Unreadable message => (inl message, w, [])
    | Parsed doc => (inr doc, w, [])
    end.

(** [fs.writeFileSync(CONFIGMAP_PATH, yaml.dump(configMap))] *)
Definition write_configMap (configMap : ConfigMap) : M unit :=
  fun w =>
    match writeFileSync_error (outside w) with
    | Some message => (inl message, w, [])
    | None =>
        (inr tt,
         {| currentModels := currentModels w;
            file := Parsed (Some configMap); outside := outside w |},
         [FileWrite configMap])
    end.

(** *** Shell commands *)

Definition quoted (s : string) : string := dquote ++ s ++ dquote.

(** The path at which the deployment exposes a model. *)
Definition mountPath_of (modelName : string) : string :=
  "/cube/conf/model/" ++ modelName ++ ".js".

Definition command_line (c : Command) : string :=
  match c with
  | KubectlApply => "kubectl apply -f " ++ CONFIGMAP_PATH
  | RolloutRestart =>
      "kubectl rollout restart deployment/cube -n " ++ NAMESPACE
  | GetDeploymentYaml =>
      "kubectl get deployment cube -n " ++ NAMESPACE ++ " -o yaml"
  | PatchAddMount modelName =>
      "kubectl patch deployment cube -n " ++ NAMESPACE
      ++ " --type='json' -p='[{" ++ quoted "op" ++ ": " ++ quoted "add"
      ++ ", " ++ quoted "path" ++ ": "
      ++ quoted "/spec/template/spec/containers/0/volumeMounts/-"
      ++ ", " ++ quoted "value" ++ ": {" ++ quoted "mountPath" ++ ": "
      ++ quoted (mountPath_of modelName)
      ++ ", " ++ quoted "name" ++ ": " ++ quoted "cube-models-volume"
      ++ ", " ++ quoted "subPath" ++ ": " ++ quoted (modelName ++ ".js")
      ++ "}}]'"
  | RolloutStatus =>
      "kubectl rollout status deployment/cube -n " ++ NAMESPACE
      ++ " --timeout=60s"
  | GetDeploymentJson =>
      "kubectl get deployment cube -n " ++ NAMESPACE ++ " -o json"
  | PatchRemoveMount mountIndex =>
      "kubectl patch deployment cube -n " ++ NAMESPACE
      ++ " --type='json' -p='[{" ++ quoted "op" ++ ": " ++ quoted "remove"
      ++ ", " ++ quoted "path" ++ ": "
      ++ quoted ("/spec/template/spec/containers/0/volumeMounts/"
                 ++ of_nat mountIndex)
      ++ "}]'"
  end.

(** [executeCommand(command, description)]: the promise is rejected with
    the error of [exec] and resolved with its standard output otherwise;
    awaiting it throws the error. The description is only logged. *)
Definition executeCommand (c : Command) : M string :=
  fun w =>
    let '(r, o) := exec (command_line c) (file w) (outside w) in
    (r,
     {| currentModels := currentModels w; file := file w; outside := o |},
     [Exec c r]).

(** [checkIfModelMountExists(modelName)] *)
Definition checkIfModelMountExists (modelName : string) : M bool :=
  try_catch
    (deploymentYaml <- executeCommand GetDeploymentYaml ;;
     ret (includes (mountPath_of modelName) deploymentYaml))
    (fun _ => ret false).

(** *** Loading and serialising the models *)

(** [loadExistingModels()] *)
Definition loadExistingModels : M obj :=
  try_catch
    (configMap <- read_configMap ;;
     match configMap with
     | Some cm =>
         match data cm with
         | Some d =>
             forEach (keys d) (fun key =>
               let modelName := replace ".js" EmptyString key in
               match get key d with
               | Some text => assign_model modelName text
               | None => ret tt
               end)
         | None => ret tt
         end
     | None => ret tt
     end ;;
     models)
    (fun _ => ret []).

(** The [data] object both mutating handlers build:
    [Object.keys(currentModels).forEach(name =>
       configMap.data[`${name}.js`] = currentModels[name])].
    The names are own properties, and a key that ends in [.js] is not
    [__proto__]: each assignment defines or overwrites the key. *)
Definition configMap_data (current : obj) : obj :=
  fold_left
    (fun d name =>
       match get name current with
       | Some text => set (name ++ ".js") text d
       | None => d
       end)
    (keys current) [].

Definition configMap_of (current : obj) : ConfigMap :=
  {| apiVersion := "v1";
     kind := "ConfigMap";
     metadata_name := CONFIGMAP_NAME;
     metadata_namespace := NAMESPACE;
     data := Some (configMap_data current) |}.

(** *** Request handlers *)

Definition Handler : Type := World -> Response * World * list Event.

(** The [try { ... res.json(ok) } catch (error) { res.status(500)... }] of
    the mutating handlers. *)
Definition respond {A} (body : M A) (ok : A -> Response) : Handler :=
  fun w =>
    match body w with
    | (inl message, w1, t) => (ServerError message, w1, t)
    | (inr a, w1, t) => (ok a, w1, t)
    end.

(** The process as it stands after the module is loaded:
    [let currentModels = {}; ...; loadExistingModels();]. *)
Definition startup (f : File) (o : Outside) : World :=
  snd (fst (loadExistingModels
              {| currentModels := []; file := f; outside := o |})).

(** [GET /api/models] *)
Definition list_models : Handler :=
  respond (loadExistingModels ;; models) ModelsOk.

(** [GET /api/models/:name] *)
Definition get_model (modelName : string) : Handler :=
  fun w =>
    (match lookup modelName (currentModels w) with
     | Text model =>
         if truthy model then ModelOk model
         else NotFound ("Model " ++ modelName ++ " not found")
     | Member member => MemberOk member
     | Undefined => NotFound ("Model " ++ modelName ++ " not found")
     end, w, []).

(** [POST /api/validate] *)
Definition validate (code : string) : Response :=
  if negb (includes "cube(" code) && negb (includes "view(" code)
  then Validation false "Model must contain a cube() or view() function"
  else match new_Function code with
       | Some message => Validation false message
       | None => Validation true "Model is valid"
       end.

(** The body of [POST /api/deploy]. *)
Definition deploy_steps (modelName code : string) : M (list Step) :=
  assign_model modelName code ;;
  current <- models ;;
  write_configMap (configMap_of current) ;;
  let steps := [] in
  output <- executeCommand KubectlApply ;;
  let steps := steps ++ [("apply", output)] in
  output <- executeCommand RolloutRestart ;;
  let steps := steps ++ [("restart", output)] in
  mountExists <- checkIfModelMountExists modelName ;;
  let isNewModel := negb mountExists in
  steps <- (if isNewModel
            then output <- executeCommand (PatchAddMount modelName) ;;
                 ret (steps ++ [("mount", output)])
            else ret steps) ;;
  output <- executeCommand RolloutStatus ;;
  let steps := steps ++ [("status", output)] in
  ret steps.

(** [POST /api/deploy] *)
Definition deploy (modelName code : string) : Handler :=
  respond (deploy_steps modelName code) (DeployOk "Deployment successful").

(** [Array.prototype.findIndex], [None] standing for [-1]. *)
Fixpoint findIndex {A} (p : A -> bool) (l : list A) : option nat :=
  match l with
  | [] => None
  | a :: l' =>
      if p a then Some 0
      else match findIndex p l' with
           | Some i => Some (S i)
           | None => None
           end
  end.

(** The body of [DELETE /api/models/:name]. *)
Definition delete_steps (modelName : string) : M string :=
  delete_model modelName ;;
  current <- models ;;
  write_configMap (configMap_of current) ;;
  executeCommand KubectlApply ;;
  mountExists <- checkIfModelMountExists modelName ;;
  (if mountExists
   then deploymentYaml <- executeCommand GetDeploymentJson ;;
        match volumeMounts_of deploymentYaml with
        | inl message => throw message
        | inr volumeMounts =>
            match findIndex (String.eqb (mountPath_of modelName))
                    volumeMounts with
            | Some mountIndex =>
                executeCommand (PatchRemoveMount mountIndex) ;; ret tt
            | None => ret tt
            end
        end
   else ret tt) ;;
  executeCommand RolloutRestart ;;
  ret ("Model " ++ modelName ++ " deleted successfully")%string.

(** [DELETE /api/models/:name] *)
Definition delete_model_handler (modelName : string) : Handler :=
  respond (delete_steps modelName) DeleteOk.

(** *** The editor's validation ([validateModel] of script.js)

    The result and the message shown to the user. *)
Definition validateModel (code : string) : bool * string :=
  if negb (includes "cube(" code) && negb (includes "view(" code)
  then (false, "Model must contain a cube() or view() function")
  else if negb (includes "sql:" code) && negb (includes "cubes:" code)
  then (false, "Model must contain SQL definition or cube references")
  else match new_Function code with
       | Some message => (false, message)
       | None => (true, "Model validation successful!")
       end.

End Server.

(** ** Observing a run *)

(** What can happen to a running server: a request, or another process
    rewriting the document. *)
Inductive Action :=
| Deploy (modelName code : string)
| Delete (modelName : string)
| ListModels
| GetModel (modelName : string)
| OutOfBandEdit (f : File).

Section Observations.

Context `{RT : Runtime}.

Definition response_of (run : Response * World * list Event) : Response :=
  fst (fst run).

Definition world_after (run : Response * World * list Event) : World :=
  snd (fst run).

Definition trace_of (run : Response * World * list Event) : list Event :=
  snd run.

(** The [step] labels of a [steps] array. *)
Definition labels (steps : list Step) : list string := map fst steps.

Definition is_exec (e : Event) : Prop :=
  match e with
  | Exec _ _ => True
  | _ => False
  end.

(** No command of the trace failed. *)
Definition commands_succeeded (t : list Event) : bool :=
  forallb (fun e => match e with
                    | Exec _ (inl _) => false
                    | _ => true
                    end) t.

(** The last event of a trace. *)
Definition last_event (t : list Event) : option Event :=
  List.last (map Some t) None.

(** The outcome of the mount-existence query of a trace and the events
    that follow it. *)
Fixpoint after_query (t : list Event) : option (Outcome * list Event) :=
  match t with
  | [] => None
  | Exec GetDeploymentYaml r :: t' => Some (r, t')
  | _ :: t' => after_query t'
  end.

(** Another process (an operator with an editor, [kubectl]) rewrites the
    persisted document behind the server's back. *)
Definition edited_out_of_band (f : File) (w : World) : World :=
  {| currentModels := currentModels w; file := f; outside := outside w |}.

(** The world an action leaves. *)
Definition act (a : Action) (w : World) : World :=
  match a with
  | Deploy modelName code => world_after (deploy modelName code w)
  | Delete modelName => world_after (delete_model_handler modelName w)
  | ListModels => world_after (list_models w)
  | GetModel modelName => world_after (get_model modelName w)
  | OutOfBandEdit f => edited_out_of_band f w
  end.

(** The world a started server is in after a sequence of actions. *)
Definition history (actions : list Action) (w : World) : World :=
  fold_left (fun w' a => act a w') actions w.

(** An entry of the in-memory map as the persisted [data] holds it. *)
Definition js_entry (kv : string * string) : string * string :=
  ((fst kv ++ ".js")%string, snd kv).

(** The map a reload leaves when it goes through the keys [ks] of the
    [data] object [d]: each is assigned under the name the loader derives
    from it. *)
Definition reload_keys (d : obj) (ks : list string) (current : obj) : obj :=
  fold_left
    (fun m key =>
       match get key d with
       | Some text => assign (replace ".js" EmptyString key) text m
       | None => m
       end)
    ks current.

(** The document a deployment of [modelName] writes, and the one its
    deletion writes. *)
Definition deployed_document (modelName code : string) (w : World) : File :=
  Parsed (Some (configMap_of (assign modelName code (currentModels w)))).

Definition remaining_document (modelName : string) (w : World) : File :=
  Parsed (Some (configMap_of (delete modelName (currentModels w)))).

(** The [data] object of the persisted document. *)
Definition persisted_data (f : File) : option obj :=
  match f with
  | Parsed (Some cm) => data cm
  | _ => None
  end.

(** The text the persisted document holds for a model name. *)
Definition persisted_text (modelName : string) (f : File) : option string :=
  match persisted_data f with
  | Some d => get (modelName ++ ".js") d
  | None => None
  end.

(** The persisted document has one key [name.js] per tracked name, in the
    order of the names, and nothing else. *)
Definition document_tracks_models (w : World) : Prop :=
  exists d,
    persisted_data (file w) = Some d /\
    keys d = map (fun name => name ++ ".js")%string (keys (currentModels w)) /\
    NoDup (keys d) /\
    List.length d = List.length (currentModels w).

End Observations.

(** ** Concrete surroundings

    Small runtimes on which the handlers can be run: the cluster answers
    each command line by a fixed outcome, the disk is writable and the
    JavaScript parser accepts every text. None of the outcomes is JSON, so
    reading a description off one throws. *)

Module Scenario.

(** The message of what [JSON.parse] throws on a text that is no JSON. *)
Definition not_json (s : string) : string :=
  match s with
  | EmptyString => "Unexpected end of JSON input"
  | String c _ =>
      "Unexpected token " ++ String c EmptyString ++ " in JSON at position 0"
  end.

Definition is_query (cmd : string) : bool :=
  startsWith "kubectl get deployment" cmd.

Definition is_status (cmd : string) : bool :=
  startsWith "kubectl rollout status" cmd.

Definition scripted (answer : string -> Outcome) : Runtime :=
  {| Outside := unit;
     CONFIGMAP_PATH := "/srv/k8s/configmaps/cube-models.yaml";
     exec := fun cmd _ o => (answer cmd, o);
     writeFileSync_error := fun _ => None;
     new_Function := fun _ => None;
     volumeMounts_of := fun s => inl (not_json s) |}.

(** Every command succeeds; the deployment mounts no model. *)
Definition fresh_cluster : Runtime :=
  scripted (fun cmd =>
    if is_query cmd then inr "volumeMounts: []" else inr "done").

(** Every command succeeds; the deployment already mounts [Widget]. *)
Definition widget_mounted : Runtime :=
  scripted (fun cmd =>
    if is_query cmd
    then inr "volumeMounts: [{mountPath: /cube/conf/model/Widget.js}]"
    else inr "done").

(** The deployment cannot be queried; every other command succeeds. *)
Definition query_down : Runtime :=
  scripted (fun cmd =>
    if is_query cmd then inl "Command failed: kubectl get deployment"
    else inr "done").

(** The rollout does not finish within the timeout. *)
Definition rollout_timeout : Runtime :=
  scripted (fun cmd =>
    if is_status cmd
    then inl "error: timed out waiting for the condition"
    else if is_query cmd then inr "volumeMounts: []"
    else inr "done").

(** A process whose map is [current], beside a document [f]. *)
Definition world_of (R : Runtime) (current : obj) (f : File) (o : @Outside R)
  : @World R :=
  {| currentModels := current; file := f; outside := o |}.

Definition widget_text : string :=
  "cube(`Widget`,{sql:`SELECT 1`,dimensions:{},measures:{count:{type:`count`}}})".

Definition no_document : File :=
  Unreadable "ENOENT: no such file or directory".

(** A server started where no document can be read: its map is empty. *)
Definition empty_process (R : Runtime) (o : @Outside R) : @World R :=
  @startup R no_document o.

Definition orders_text : string := "cube(`Orders`,{sql:`SELECT * FROM orders`})".
Definition customers_text : string :=
  "cube(`Customers`,{sql:`SELECT * FROM customers`})".

(** The document at start-up, and the same after an operator removed
    [Orders.js] from it by hand. *)
Definition document_at_startup : File :=
  Parsed (Some (configMap_of [("Orders", orders_text);
                              ("Customers", customers_text)])).

Definition document_after_edit : File :=
  Parsed (Some (configMap_of [("Customers", customers_text)])).

(** A server that tracks two models whose names differ by where [.js]
    stands in them. *)
Definition two_similar_names : @World fresh_cluster :=
  world_of fresh_cluster
    [("orderson.js", "cube(`A`,{sql:`SELECT 1`})");
     ("orders.json", "cube(`B`,{sql:`SELECT 2`})")]
    no_document tt.

(** A server that tracks a model whose text is empty. *)
Definition empty_text_model : @World fresh_cluster :=
  world_of fresh_cluster [("Draft", EmptyString)] no_document tt.

End Scenario.

(** ** The logs endpoint *)

(** [s.split(sep)] for a separator of one character. *)
Fixpoint split_on (sep : ascii) (s : string) : list string :=
  match s with
  | EmptyString => [EmptyString]
  | String c s' =>
      if Ascii.eqb c sep then EmptyString :: split_on sep s'
      else match split_on sep s' with
           | line :: lines => String c line :: lines
           | [] => [String c EmptyString]
           end
  end.

(** The line feed, [U+000A]. *)
Definition line_feed : ascii := ascii_of_nat 10.

(** How often a character occurs in a string. *)
Fixpoint occurrences (c : ascii) (s : string) : nat :=
  match s with
  | EmptyString => 0
  | String c' s' => (if Ascii.eqb c' c then 1 else 0) + occurrences c s'
  end.

(** The responses of [GET /api/cluster/logs]: 200 with the lines, or 500
    with the message of the error. *)
Inductive LogsResponse :=
| LogsOk (logs : list string)
| LogsError (message : string).

Section ClusterEndpoints.

Context `{RT : Runtime}.

(** [await executeCommand(line, ...)] for a command line given as text. *)
Definition run_line (line : string) (w : World) : Outcome * World :=
  let '(r, o) := exec line (file w) (outside w) in
  (r, {| currentModels := currentModels w; file := file w; outside := o |}).

Definition logs_command : string :=
  "kubectl logs -n " ++ NAMESPACE ++ " deployment/cube --tail=50".

(** [GET /api/cluster/logs] *)
Definition cluster_logs (w : World) : LogsResponse * World :=
  match run_line logs_command w with
  | (inl message, w1) => (LogsError message, w1)
  | (inr logs, w1) => (LogsOk (split_on line_feed logs), w1)
  end.

End ClusterEndpoints.

(** ** The editor page (cube-editor/script.js)

    The page is modelled by the variables of the script ([currentModel],
    [models], [currentTab]), the text in the editor, and the [logs] item of
    [localStorage], kept in parsed form. The elements of the page are not
    modelled: what the functions write to them is left out. The clock is an
    oracle read once per logged entry; the server is reached through three
    requests whose replies are [inl] the message of the error [fetch]
    rejects with, or [inr] the fields the script reads off the JSON. The
    editor component holds a text; what it makes of a value that is not a
    string is a parameter. *)

Module Editor.

Record LogRecord := {
  log_type : string;
  log_message : string;
  log_timestamp : string
}.

Record Page := {
  currentModel : string;
  models : obj;
  editor : string;
  currentTab : string;
  logs : list LogRecord;
  clock : nat
}.

(** [a || b] on string values that may be [undefined]. *)
Definition or_else (a : option string) (b : string) : string :=
  match a with
  | Some s => if truthy s then s else b
  | None => b
  end.

(** [a || b] on values read off an object. *)
Definition or_value (a b : Value) : Value :=
  if truthy_value a then a else b.

(** The template [createNewModel] generates for a cube. *)
Definition cube_template (name tableName : string) : string :=
  String.concat (String line_feed EmptyString)
    [ ("cube(`" ++ name ++ "`, {")%string;
      ("  sql: `SELECT * FROM " ++ tableName ++ "`,")%string;
      "  ";
      "  joins: {},";
      "  ";
      "  dimensions: {";
      "    id: {";
      "      sql: `id`,";
      "      type: `number`,";
      "      primaryKey: true";
      "    }";
      "  },";
      "  ";
      "  measures: {";
      "    count: {";
      "      type: `count`";
      "    }";
      "  }";
      "});" ].

(** The template [createNewModel] generates for a view. *)
Definition view_template (name : string) : string :=
  String.concat (String line_feed EmptyString)
    [ ("view(`" ++ name ++ "`, {")%string;
      ("  description: `View for " ++ name ++ " analysis`,")%string;
      "  ";
      "  cubes: [";
      "    {";
      "      joinPath: Cube1,";
      "      includes: [`dimension1`, `measure1`]";
      "    }";
      "  ]";
      "});" ].

(** The pure part of [validateModel], defined with the server. *)
Definition check `{Runtime} (code : string) : bool * string :=
  validateModel code.

Section Script.

Context `{RT : Runtime}.

(** [new Date().toLocaleTimeString()] at the n-th reading. *)
Variable toLocaleTimeString : nat -> string.

(** The built-in definitions, [const modelDefinitions = {...}]. *)
Variable modelDefinitions : obj.

(** What [editor.setValue] makes of a member of [Object.prototype], which
    it is handed when a model is looked up under an inherited name: the
    text the editor holds afterwards, or [None] when the call throws
    (CodeMirror splits its argument into lines with [split], which no
    member has). *)
Variable setValue_member : string -> option string.

(** The server as the page sees it. [fetch_models] is [GET /api/models]:
    [Some models] for a reply with [success: true], [None] for one without.
    [fetch_deploy] and [fetch_delete] are [POST /api/deploy] and
    [DELETE /api/models/:name]: the [success] and the [message] of the
    reply (the empty string for none). *)
Variable Server : Type.
Variable fetch_models : Server -> (string + option obj) * Server.
Variable fetch_deploy :
  string -> string -> Server -> (string + bool * string) * Server.
Variable fetch_delete : string -> Server -> (string + bool * string) * Server.

Definition with_logs (l : list LogRecord) (n : nat) (p : Page) : Page :=
  {| currentModel := currentModel p; models := models p; editor := editor p;
     currentTab := currentTab p; logs := l; clock := n |}.

Definition with_models (m : obj) (p : Page) : Page :=
  {| currentModel := currentModel p; models := m; editor := editor p;
     currentTab := currentTab p; logs := logs p; clock := clock p |}.

Definition with_editor (text : string) (p : Page) : Page :=
  {| currentModel := currentModel p; models := models p; editor := text;
     currentTab := currentTab p; logs := logs p; clock := clock p |}.

(** [addLog(type, message, store)]: nothing happens away from the output
    tab; on it the entry is shown and, when [store] is set, pushed to the
    stored logs, of which only the last 100 are kept. *)
Definition addLog (type message : string) (store : bool) (p : Page) : Page :=
  if negb (String.eqb (currentTab p) "output") then p
  else
    let timestamp := toLocaleTimeString (clock p) in
    if store
    then
      let pushed :=
        logs p ++ [{| log_type := type; log_message := message;
                      log_timestamp := timestamp |}] in
      with_logs
        (if Nat.ltb 100 (List.length pushed) then List.tl pushed else pushed)
        (S (clock p)) p
    else with_logs (logs p) (S (clock p)) p.

(** [switchTab(tab)] *)
Definition switchTab (tab : string) (p : Page) : Page :=
  let p1 :=
    {| currentModel := currentModel p; models := models p;
       editor := editor p; currentTab := tab; logs := logs p;
       clock := clock p |} in
  if String.eqb tab "deployment" then p1
  else if String.eqb tab "validation" then p1
  else fold_left (fun q log => addLog (log_type log) (log_message log) false q)
         (logs p1) p1.

(** [models[modelName] || modelDefinitions[modelName] || ''] *)
Definition content_of (modelName : string) (p : Page) : Value :=
  or_value (lookup modelName (models p))
    (or_value (lookup modelName modelDefinitions) (Text EmptyString)).

(** [editor.setValue(content)]: the text the editor holds afterwards,
    [None] when the call throws. The content of a model is never
    [undefined]. *)
Definition setValue (content : Value) : option string :=
  match content with
  | Text text => Some text
  | Member name => setValue_member name
  | Undefined => None
  end.

(** [loadModel(modelName)]: the page as the call leaves it. When
    [editor.setValue] throws, the call ends there, with [currentModel]
    set. *)
Definition loadModel (modelName : string) (p : Page) : Page :=
  let p1 :=
    {| currentModel := modelName; models := models p; editor := editor p;
       currentTab := currentTab p; logs := logs p; clock := clock p |} in
  match setValue (content_of modelName p) with
  | Some content =>
      addLog "info" ("Loaded model: " ++ modelName) true
        (with_editor content p1)
  | None => p1
  end.

(** Whether [loadModel(modelName)] throws. *)
Definition loadModel_throws (modelName : string) (p : Page) : bool :=
  match setValue (content_of modelName p) with
  | Some _ => false
  | None => true
  end.

(** [validateModel()] *)
Definition validateModel (p : Page) : bool * Page :=
  let p1 := addLog "info" "Validating model..." true p in
  match check (editor p1) with
  | (true, _) => (true, addLog "success" "✓ Model is valid" true p1)
  | (false, message) =>
      (false, addLog "error" ("✗ Validation failed: " ++ message) true p1)
  end.

(** [loadModelsFromServer()]: [inl] the message of what it throws. *)
Definition loadModelsFromServer (p : Page) (s : Server)
  : (string + unit) * Page * Server :=
  match fetch_models s with
  | (inl message, s1) => (inl message, p, s1)
  | (inr None, s1) => (inl "Failed to load models from server", p, s1)
  | (inr (Some ms), s1) =>
      (inr tt,
       addLog "success"
         ("Loaded " ++ of_nat (List.length ms) ++ " models from server") true
         (with_models ms p),
       s1)
  end.

(** [deployToCluster()] *)
Definition deployToCluster (p : Page) (s : Server) : Page * Server :=
  let '(valid, p1) := validateModel p in
  if negb valid then (addLog "error" "Cannot deploy invalid model" true p1, s)
  else
    let p2 := switchTab "deployment" p1 in
    let p3 :=
      addLog "info" "Starting deployment to Kubernetes cluster..." true p2 in
    let failed message q :=
      addLog "error" ("✗ Deployment failed: " ++ message) true q in
    match fetch_deploy (currentModel p3) (editor p3) s with
    | (inl message, s1) => (failed message p3, s1)
    | (inr (false, message), s1) =>
        (failed (or_else (Some message) "Deployment failed") p3, s1)
    | (inr (true, _), s1) =>
        let p4 :=
          addLog "success" "✓ Deployment completed successfully!" true p3 in
        let p5 :=
          addLog "info"
            ("Model " ++ currentModel p4 ++ " is now live on cluster") true
            p4 in
        let p6 := addLog "info" "ConfigMap updated and pod restarted" true p5 in
        let p7 :=
          with_models (assign (currentModel p6) (editor p6) (models p6)) p6 in
        match loadModelsFromServer p7 s1 with
        | (inl message, p8, s2) => (failed message p8, s2)
        | (inr _, p8, s2) => (p8, s2)
        end
    end.

(** [deleteModel()], [confirmed] being the answer to [confirm(...)]. *)
Definition deleteModel (confirmed : bool) (p : Page) (s : Server)
  : Page * Server :=
  if negb confirmed then (p, s)
  else
    let p1 :=
      addLog "warning" ("🗑️ Deleting model: " ++ currentModel p) true p in
    let failed message q :=
      addLog "error" ("❌ Delete failed: " ++ message) true q in
    match fetch_delete (currentModel p1) s with
    | (inl message, s1) => (failed message p1, s1)
    | (inr (false, message), s1) => (failed message p1, s1)
    | (inr (true, message), s1) =>
        let p2 := addLog "success" ("✅ " ++ message) true p1 in
        let p3 := with_editor EmptyString p2 in
        match loadModelsFromServer p3 s1 with
        | (inl message', p4, s2) => (failed message' p4, s2)
        | (inr _, p4, s2) => (p4, s2)
        end
    end.

(** [createNewModel()], on the name, type and table name typed into the
    dialog: the page as the call leaves it. When [loadModel] throws, so
    does the call, and nothing after it runs. *)
Definition createNewModel (name type tableName : string) (p : Page) : Page :=
  if negb (truthy name) then p
  else if String.eqb type "cube" && negb (truthy tableName) then p
  else
    let template :=
      if String.eqb type "cube" then cube_template name tableName
      else view_template name in
    let p1 := with_models (assign name template (models p)) p in
    let p2 := loadModel name p1 in
    if loadModel_throws name p1 then p2
    else addLog "success" ("Created new " ++ type ++ ": " ++ name) true p2.

(** The handler of [DOMContentLoaded], once the editor is set up: the
    models come from the server, or from the built-in definitions when
    loading them fails. [Customers] is no member of [Object.prototype], so
    its content is a text and [loadModel('Customers')] does not throw. *)
Definition DOMContentLoaded (p : Page) (s : Server) : Page * Server :=
  match loadModelsFromServer p s with
  | (inr _, p1, s1) =>
      (addLog "info" "Editor ready. Models loaded from server." true
         (loadModel "Customers" p1), s1)
  | (inl _, p1, s1) =>
      let local :=
        fold_left
          (fun m key =>
             match get key modelDefinitions with
             | Some text => assign key text m
             | None => m
             end)
          (keys modelDefinitions) (models p1) in
      (addLog "warning" "Using local model definitions (server unavailable)"
         true (loadModel "Customers" (with_models local p1)), s1)
  end.

End Script.

(** The server of this repository behind a connection that works. *)
Section Connected.

Context `{RT : Runtime}.

Definition server_models (w : World) : (string + option obj) * World :=
  match list_models w with
  | (ModelsOk current, w1, _) => (inr (Some current), w1)
  | (_, w1, _) => (inr None, w1)
  end.

Definition server_deploy (modelName code : string) (w : World)
  : (string + bool * string) * World :=
  match deploy modelName code w with
  | (DeployOk message _, w1, _) => (inr (true, message), w1)
  | (ServerError message, w1, _) => (inr (false, message), w1)
  | (_, w1, _) => (inr (false, EmptyString), w1)
  end.


End Connected.

End Editor.

(** ** More concrete surroundings *)

Module Examples.

Import Scenario.

(** A server that tracks [Widget] and [Orders]. *)
Definition two_models (R : Runtime) (o : @Outside R) : @World R :=
  world_of R [("Widget", widget_text); ("Orders", orders_text)]
    no_document o.

(** A server that tracks [Orders] only. *)
Definition orders_only (R : Runtime) (o : @Outside R) : @World R :=
  world_of R [("Orders", orders_text)] no_document o.

(** The description [kubectl get deployment cube -o json] prints, cut down
    to what the server reads off it: the containers, each with the paths
    it mounts. *)
Definition mount_entry (mountPath : string) : string :=
  "{" ++ quoted "mountPath" ++ ":" ++ quoted mountPath ++ "}".

Definition container_entry (mountPaths : list string) : string :=
  "{" ++ quoted "volumeMounts" ++ ":["
  ++ String.concat "," (map mount_entry mountPaths) ++ "]}".

Definition description (containers : list (list string)) : string :=
  "{" ++ quoted "spec" ++ ":{" ++ quoted "template" ++ ":{" ++ quoted "spec"
  ++ ":{" ++ quoted "containers" ++ ":["
  ++ String.concat "," (map container_entry containers) ++ "]}}}}".

(** Reading the mounts of the first container on a cluster whose
    deployment has the given containers: the description of that
    deployment is read, and any other text is no JSON, on which
    [JSON.parse] throws. *)
Definition reads (containers : list (list string)) (s : string)
  : string + list string :=
  if String.eqb s (description containers)
  then match containers with
       | first :: _ => inr first
       | [] =>
           inl "Cannot read properties of undefined (reading 'volumeMounts')"
       end
  else inl (not_json s).

(** A cluster that prints [yaml] for the query and [json] for the
    description, and answers every other command with success; its
    deployment has the given containers. *)
Definition cluster (yaml json : string) (containers : list (list string))
  : Runtime :=
  {| Outside := unit;
     CONFIGMAP_PATH := "/srv/k8s/configmaps/cube-models.yaml";
     exec := fun cmd _ o =>
       (if includes "-o yaml" cmd then inr yaml
        else if includes "-o json" cmd then inr json
        else inr "done", o);
     writeFileSync_error := fun _ => None;
     new_Function := fun _ => None;
     volumeMounts_of := reads containers |}.

Definition widget_yaml : string :=
  "volumeMounts: [{mountPath: /cube/conf/cube.js}, {mountPath: /cube/conf/model/Widget.js}]".

(** Every command succeeds; the deployment mounts [Widget] after the
    configuration file, and its description can be read. *)
Definition widget_listed : Runtime :=
  cluster widget_yaml
    (description [["/cube/conf/cube.js"; "/cube/conf/model/Widget.js"]])
    [["/cube/conf/cube.js"; "/cube/conf/model/Widget.js"]].

(** The path of [Widget] is mounted by a second container: the query
    finds it in the text, the mounts of the first container do not list
    it. *)
Definition widget_on_sidecar : Runtime :=
  cluster
    "containers: [{volumeMounts: [{mountPath: /cube/conf/cube.js}]}, {volumeMounts: [{mountPath: /cube/conf/model/Widget.js}]}]"
    (description [["/cube/conf/cube.js"]; ["/cube/conf/model/Widget.js"]])
    [["/cube/conf/cube.js"]; ["/cube/conf/model/Widget.js"]].

(** The description comes with a notice in front of it, and is no JSON. *)
Definition garbled_description : string :=
  "Warning: version skew"
  ++ description [["/cube/conf/cube.js"; "/cube/conf/model/Widget.js"]].

Definition description_garbled : Runtime :=
  cluster widget_yaml garbled_description
    [["/cube/conf/cube.js"; "/cube/conf/model/Widget.js"]].

(** A clock that stands still. *)
Definition noon (n : nat) : string := "12:00:00".

(** A page on the output tab with [Widget] in the editor. *)
Definition widget_page : Editor.Page :=
  {| Editor.currentModel := "Widget";
     Editor.models := [];
     Editor.editor := widget_text;
     Editor.currentTab := "output";
     Editor.logs := [];
     Editor.clock := 0 |}.

(** The same page with a text that is no model. *)
Definition scribble_page : Editor.Page :=
  {| Editor.currentModel := "Widget";
     Editor.models := [];
     Editor.editor := "not a model";
     Editor.currentTab := "output";
     Editor.logs := [];
     Editor.clock := 0 |}.

End Examples.

(** * Properties *)

(** ** Strings *)

Lemma length_append (s t : string) :
  String.length (s ++ t) = String.length s + String.length t.
Proof.
  induction s as [|c s IH]; simpl; [reflexivity | now rewrite IH].
Qed.

(** Appending the same extension to two names gives the same key only
    when the names are the same. *)
Lemma append_inj_l (t s1 s2 : string) :
  (s1 ++ t = s2 ++ t)%string -> s1 = s2.
Proof.
  revert s2. induction s1 as [|c s1 IH]; intros [|d s2] E; simpl in E.
  - reflexivity.
  - apply (f_equal String.length) in E. simpl in E.
    rewrite length_append in E. lia.
  - apply (f_equal String.length) in E. simpl in E.
    rewrite length_append in E. lia.
  - injection E as -> E. f_equal. now apply IH.
Qed.

Lemma digits_value_js (n : string) (acc : N) :
  digits_value (n ++ ".js") acc = None.
Proof.
  revert acc. induction n as [|c n IH]; intros acc; simpl.
  - reflexivity.
  - destruct (is_digit c); [apply IH | reflexivity].
Qed.

(** A key with the [.js] extension is never an array index. *)
Lemma array_index_js (n : string) : array_index (n ++ ".js") = None.
Proof.
  destruct n as [|c n].
  - reflexivity.
  - change (String c n ++ ".js")%string with (String c (n ++ ".js")).
    unfold array_index.
    destruct (Ascii.eqb c "0").
    + destruct n; reflexivity.
    + change (String c (n ++ ".js")) with (String c n ++ ".js")%string.
      now rewrite digits_value_js.
Qed.

(** ** Objects *)

Lemma get_None_iff (k : string) (o : obj) :
  get k o = None <-> ~ In k (keys o).
Proof.
  induction o as [|[k' v'] o IH]; simpl.
  - tauto.
  - destruct (String.eqb_spec k k') as [->|N].
    + split; [discriminate | intros H; exfalso; apply H; now left].
    + rewrite IH. split.
      * intros H [E|I]; [congruence | tauto].
      * intros H I. apply H. now right.
Qed.

Lemma get_Some_In (k v : string) (o : obj) :
  get k o = Some v -> In k (keys o).
Proof.
  intros G. destruct (in_dec string_dec k (keys o)) as [I|I]; [exact I|].
  apply get_None_iff in I. congruence.
Qed.

Lemma get_of_In (k v : string) (o : obj) :
  wf o -> In (k, v) o -> get k o = Some v.
Proof.
  unfold wf. induction o as [|[k' v'] o IH]; simpl; intros W I.
  - contradiction.
  - inversion W as [|? ? N W']; subst.
    destruct I as [E|I].
    + injection E as -> ->. now rewrite String.eqb_refl.
    + destruct (String.eqb_spec k k') as [->|_].
      * exfalso. apply N. change k' with (fst (k', v)). now apply in_map.
      * now apply IH.
Qed.

Lemma keys_update (k v : string) (o : obj) : keys (update k v o) = keys o.
Proof.
  induction o as [|[k' v'] o IH]; simpl; [reflexivity|].
  destruct (String.eqb k k'); simpl; [reflexivity | now rewrite IH].
Qed.

Lemma get_update_same (k v : string) (o : obj) :
  has k o = true -> get k (update k v o) = Some v.
Proof.
  unfold has. induction o as [|[k' v'] o IH]; simpl; [discriminate|].
  destruct (String.eqb k k') eqn:E; simpl; rewrite E; [reflexivity | exact IH].
Qed.

Lemma get_update_other (k k' v : string) (o : obj) :
  k' <> k -> get k' (update k v o) = get k' o.
Proof.
  intros N. induction o as [|[k0 v0] o IH]; simpl; [reflexivity|].
  destruct (String.eqb_spec k k0) as [->|_]; simpl.
  - apply String.eqb_neq in N. now rewrite N.
  - now rewrite IH.
Qed.

Lemma get_insert_index_same (i : N) (k v : string) (o : obj) :
  get k o = None -> get k (insert_index i k v o) = Some v.
Proof.
  induction o as [|[k' v'] o IH]; simpl; intros G.
  - now rewrite String.eqb_refl.
  - destruct (String.eqb k k') eqn:E; [discriminate|].
    destruct (array_index k') as [j|]; [destruct (j <? i)%N|]; simpl;
      rewrite ?E, ?String.eqb_refl; auto.
Qed.

Lemma get_insert_index_other (i : N) (k k' v : string) (o : obj) :
  k' <> k -> get k' (insert_index i k v o) = get k' o.
Proof.
  intros N. apply String.eqb_neq in N.
  induction o as [|[k0 v0] o IH]; simpl.
  - now rewrite N.
  - destruct (array_index k0) as [j|]; [destruct (j <? i)%N|]; simpl;
      rewrite ?N, ?IH; reflexivity.
Qed.

Lemma keys_insert_index (i : N) (k v x : string) (o : obj) :
  In x (keys (insert_index i k v o)) <-> x = k \/ In x (keys o).
Proof.
  induction o as [|[k0 v0] o IH]; simpl.
  - intuition.
  - destruct (array_index k0) as [j|]; [destruct (j <? i)%N|]; simpl;
      rewrite ?IH; intuition.
Qed.

Lemma wf_insert_index (i : N) (k v : string) (o : obj) :
  wf o -> ~ In k (keys o) -> wf (insert_index i k v o).
Proof.
  unfold wf. induction o as [|[k0 v0] o IH]; simpl; intros W N.
  - constructor; [tauto | constructor].
  - inversion W as [|? ? N0 W0]; subst.
    destruct (array_index k0) as [j|]; [destruct (j <? i)%N|]; simpl.
    + constructor.
      * change (~ In k0 (keys (insert_index i k v o))).
        rewrite keys_insert_index. intuition.
      * apply IH; tauto.
    + constructor; [simpl; tauto | now constructor].
    + constructor; [simpl; tauto | now constructor].
Qed.

Lemma get_app_fresh (k v : string) (o : obj) :
  get k o = None -> get k (o ++ [(k, v)]) = Some v.
Proof.
  induction o as [|[k' v'] o IH]; simpl; intros G.
  - now rewrite String.eqb_refl.
  - destruct (String.eqb k k'); [discriminate | auto].
Qed.

Lemma get_app_other (k k' v : string) (o : obj) :
  k' <> k -> get k' (o ++ [(k, v)]) = get k' o.
Proof.
  intros N. apply String.eqb_neq in N.
  induction o as [|[k0 v0] o IH]; simpl.
  - now rewrite N.
  - now rewrite IH.
Qed.

(** Reading back what was just assigned. *)
Lemma get_set_same (k v : string) (o : obj) : get k (set k v o) = Some v.
Proof.
  unfold set. destruct (has k o) eqn:H.
  - now apply get_update_same.
  - assert (G : get k o = None)
      by (unfold has in H; destruct (get k o); [discriminate | reflexivity]).
    destruct (array_index k).
    + now apply get_insert_index_same.
    + now apply get_app_fresh.
Qed.

(** An assignment leaves the other properties alone. *)
Lemma get_set_other (k k' v : string) (o : obj) :
  k' <> k -> get k' (set k v o) = get k' o.
Proof.
  intros N. unfold set. destruct (has k o).
  - now apply get_update_other.
  - destruct (array_index k).
    + now apply get_insert_index_other.
    + now apply get_app_other.
Qed.

Lemma wf_set (k v : string) (o : obj) : wf o -> wf (set k v o).
Proof.
  intros W. unfold set. destruct (has k o) eqn:H.
  - unfold wf. now rewrite keys_update.
  - assert (N : ~ In k (keys o)).
    { apply get_None_iff. unfold has in H.
      destruct (get k o); [discriminate | reflexivity]. }
    destruct (array_index k).
    + now apply wf_insert_index.
    + unfold wf, keys. rewrite map_app. simpl.
      apply NoDup_app; [exact W | constructor; [tauto | constructor] |].
      intros x I [<-|[]]. contradiction.
Qed.

Lemma keys_delete (k x : string) (o : obj) :
  In x (keys (delete k o)) <-> x <> k /\ In x (keys o).
Proof.
  unfold delete. induction o as [|[k0 v0] o IH]; simpl.
  - tauto.
  - destruct (String.eqb_spec k k0) as [->|N]; simpl.
    + rewrite IH. intuition congruence.
    + rewrite IH. intuition congruence.
Qed.

(** A deleted property reads as [undefined]. *)
Lemma get_delete_same (k : string) (o : obj) : get k (delete k o) = None.
Proof.
  apply get_None_iff. rewrite keys_delete. tauto.
Qed.

Lemma get_delete_other (k k' : string) (o : obj) :
  k' <> k -> get k' (delete k o) = get k' o.
Proof.
  intros N. unfold delete. induction o as [|[k0 v0] o IH]; simpl.
  - reflexivity.
  - destruct (String.eqb_spec k k0) as [->|N0]; simpl.
    + rewrite IH. destruct (String.eqb_spec k' k0); [contradiction | reflexivity].
    + now rewrite IH.
Qed.

Lemma wf_delete (k : string) (o : obj) : wf o -> wf (delete k o).
Proof.
  unfold wf, delete. induction o as [|[k0 v0] o IH]; simpl; intros W.
  - constructor.
  - inversion W as [|? ? N W0]; subst.
    destruct (String.eqb k k0); simpl; [auto|].
    constructor; [|auto].
    intros I. apply N. apply (keys_delete k k0 o) in I. tauto.
Qed.

(** Deleting an absent property changes nothing. *)
Lemma delete_absent (k : string) (o : obj) : get k o = None -> delete k o = o.
Proof.
  unfold delete. induction o as [|[k0 v0] o IH]; simpl; intros G.
  - reflexivity.
  - destruct (String.eqb k k0); [discriminate|]. simpl. now rewrite IH.
Qed.

Lemma set_fresh_js (n v : string) (d : obj) :
  ~ In (n ++ ".js")%string (keys d) ->
  set (n ++ ".js") v d = d ++ [((n ++ ".js")%string, v)].
Proof.
  intros N. apply get_None_iff in N. unfold set, has.
  now rewrite N, array_index_js.
Qed.

(** *** Assignment and lookup through the prototype *)

Lemma assign_set (k v : string) (o : obj) :
  k <> "__proto__" -> assign k v o = set k v o.
Proof.
  intros N. unfold assign. apply String.eqb_neq in N. now rewrite N.
Qed.

(** An assignment to [__proto__] on an object that owns none stores
    nothing. *)
Lemma assign_proto (v : string) (o : obj) :
  get "__proto__" o = None -> assign "__proto__" v o = o.
Proof.
  intros G. unfold assign, has. now rewrite G.
Qed.

Lemma assign_cases (k v : string) (o : obj) :
  (k = "__proto__" /\ get k o = None /\ assign k v o = o) \/
  assign k v o = set k v o.
Proof.
  unfold assign, has. destruct (String.eqb_spec k "__proto__") as [->|N].
  - destruct (get "__proto__" o) eqn:G; cbn; [now right | left; auto].
  - now right.
Qed.

(** Reading back what was just assigned, under every name but
    [__proto__]. *)
Lemma get_assign_same (k v : string) (o : obj) :
  k <> "__proto__" -> get k (assign k v o) = Some v.
Proof.
  intros N. rewrite assign_set by exact N. apply get_set_same.
Qed.

Lemma get_assign_other (k k' v : string) (o : obj) :
  k' <> k -> get k' (assign k v o) = get k' o.
Proof.
  intros N. destruct (assign_cases k v o) as [(_ & _ & ->) | ->];
    [reflexivity | now apply get_set_other].
Qed.

Lemma wf_assign (k v : string) (o : obj) : wf o -> wf (assign k v o).
Proof.
  intros W. destruct (assign_cases k v o) as [(_ & _ & ->) | ->];
    [exact W | now apply wf_set].
Qed.

(** What an object owns after an assignment to [__proto__] is what it
    owned before. *)
Lemma get_proto_assign (k v : string) (o : obj) :
  get "__proto__" o = None -> get "__proto__" (assign k v o) = None.
Proof.
  intros G. destruct (String.eqb_spec k "__proto__") as [->|N].
  - now rewrite assign_proto.
  - rewrite get_assign_other; [exact G | congruence].
Qed.

(** ** Serialising the models *)

Lemma keys_js_entries (o : obj) :
  keys (map js_entry o) = map (fun name => name ++ ".js")%string (keys o).
Proof.
  unfold keys. rewrite !map_map. reflexivity.
Qed.

Lemma NoDup_js_keys (names : list string) :
  NoDup names -> NoDup (map (fun name => name ++ ".js")%string names).
Proof.
  induction 1 as [|a l N _ IH]; simpl; constructor; [|exact IH].
  rewrite in_map_iff. intros (b & E & I).
  apply append_inj_l in E. now subst b.
Qed.

Lemma configMap_data_from (current l : obj) (acc : obj) :
  (forall kv, In kv l -> get (fst kv) current = Some (snd kv)) ->
  NoDup (keys l) ->
  (forall kv, In kv l -> ~ In (fst kv ++ ".js")%string (keys acc)) ->
  fold_left
    (fun d name =>
       match get name current with
       | Some text => set (name ++ ".js") text d
       | None => d
       end)
    (keys l) acc
  = acc ++ map js_entry l.
Proof.
  revert acc. induction l as [|[k v] l IH]; intros acc G D F; simpl.
  - now rewrite app_nil_r.
  - pose proof (G (k, v) (or_introl eq_refl)) as Gk. simpl in Gk.
    rewrite Gk.
    rewrite set_fresh_js by (apply (F (k, v)); now left).
    inversion D as [|? ? Nk D']; subst.
    rewrite IH.
    + now rewrite <- app_assoc.
    + intros kv I. apply G. now right.
    + exact D'.
    + intros [k' v'] I. unfold keys. rewrite map_app, in_app_iff. simpl.
      intros [J|[J|[]]].
      * apply (F (k', v')); [now right | exact J].
      * apply append_inj_l in J. subst k'. apply Nk.
        change k with (fst (k, v')). now apply in_map.
Qed.

(** On a well-formed map the serialised [data] is the map itself with
    every key extended by [.js], in the same order. *)
Lemma configMap_data_wf (current : obj) :
  wf current -> configMap_data current = map js_entry current.
Proof.
  intros W. unfold configMap_data.
  rewrite (configMap_data_from current current []); [reflexivity | | exact W |].
  - intros [k v] I. now apply get_of_In.
  - intros kv _ [].
Qed.

Lemma get_fold_configMap_data (current : obj) (k v : string) (ks : list string)
    (acc : obj) :
  get k current = Some v ->
  In k ks \/ get (k ++ ".js") acc = Some v ->
  get (k ++ ".js")
    (fold_left
       (fun d name =>
          match get name current with
          | Some text => set (name ++ ".js") text d
          | None => d
          end) ks acc) = Some v.
Proof.
  intros G. revert acc. induction ks as [|a ks IH]; intros acc H; simpl.
  - destruct H as [[]|H]; exact H.
  - apply IH. destruct (string_dec a k) as [->|N].
    + right. rewrite G. apply get_set_same.
    + destruct H as [[E|I]|H]; [congruence | now left | right].
      destruct (get a current); [|exact H].
      rewrite get_set_other; [exact H|].
      intros E. apply append_inj_l in E. congruence.
Qed.

(** Every tracked model is serialised under its key, with its text. *)
Lemma get_configMap_data (current : obj) (k v : string) :
  get k current = Some v -> get (k ++ ".js") (configMap_data current) = Some v.
Proof.
  intros G. unfold configMap_data.
  apply get_fold_configMap_data; [exact G | left].
  now apply get_Some_In with v.
Qed.

(** ** The loader's inverse of the key mapping

    [key.replace('.js', '')] undoes [`${name}.js`] on the names that do not
    contain [.js] themselves, and only on names that are fixed by moving
    their first [.js] to the end. *)

Lemma startsWith_js_app (m : string) :
  m <> EmptyString ->
  startsWith ".js" (m ++ ".js") = startsWith ".js" m.
Proof.
  destruct m as [|c1 [|c2 [|c3 m]]]; intros N; cbn.
  - contradiction.
  - destruct (Ascii.eqb "." c1); reflexivity.
  - destruct (Ascii.eqb "." c1), (Ascii.eqb "j" c2); reflexivity.
  - reflexivity.
Qed.

Lemma includes_app_r (p x : string) : includes p (x ++ p) = true.
Proof.
  assert (R : forall q, startsWith q q = true).
  { induction q as [|c q IH]; cbn; [reflexivity|].
    now rewrite Ascii.eqb_refl, IH. }
  induction x as [|c x IH]; cbn.
  - destruct p; cbn; [reflexivity|]. now rewrite Ascii.eqb_refl, R.
  - rewrite IH. apply orb_true_r.
Qed.

Lemma drop_js_app (m : string) :
  startsWith ".js" m = true ->
  drop 3 (m ++ ".js") = (drop 3 m ++ ".js")%string.
Proof.
  destruct m as [|c1 [|c2 [|c3 m]]]; cbn; intros S.
  - discriminate.
  - rewrite andb_false_r in S. discriminate.
  - rewrite !andb_false_r in S. discriminate.
  - reflexivity.
Qed.

(** A name without [.js] inside is read back as it was written. *)
Lemma replace_js_key (m : string) :
  includes ".js" m = false ->
  replace ".js" EmptyString (m ++ ".js") = m.
Proof.
  induction m as [|c m IH]; intros I.
  - reflexivity.
  - change (includes ".js" (String c m))
      with (startsWith ".js" (String c m) || includes ".js" m) in I.
    apply orb_false_iff in I. destruct I as [S I].
    change (String c m ++ ".js")%string with (String c (m ++ ".js")).
    unfold replace; fold replace.
    change (String c (m ++ ".js")) with (String c m ++ ".js")%string at 1.
    rewrite startsWith_js_app by discriminate.
    rewrite S. f_equal. now apply IH.
Qed.

(** A name with [.js] inside is read back as a name that ends in [.js]
    with the first [.js] gone. *)
Lemma replace_js_key_inside (m : string) :
  includes ".js" m = true ->
  includes ".js" (replace ".js" EmptyString (m ++ ".js")) = true.
Proof.
  induction m as [|c m IH]; intros I.
  - discriminate.
  - change (includes ".js" (String c m))
      with (startsWith ".js" (String c m) || includes ".js" m) in I.
    change (String c m ++ ".js")%string with (String c (m ++ ".js")).
    unfold replace; fold replace.
    change (String c (m ++ ".js")) with (String c m ++ ".js")%string at 1.
    rewrite startsWith_js_app by discriminate.
    destruct (startsWith ".js" (String c m)) eqn:S.
    + change (String c (m ++ ".js")) with (String c m ++ ".js")%string.
      change (String.length ".js") with 3.
      rewrite drop_js_app by exact S.
      exact (includes_app_r ".js" (drop 3 (String c m))).
    + cbn in I.
      change (includes ".js" (String c ?r))
        with (startsWith ".js" (String c r) || includes ".js" r).
      rewrite IH by exact I. apply orb_true_r.
Qed.

(** The only key the loader reads as a name without [.js] inside is the
    key of that name. *)
Lemma replace_js_key_inv (m n : string) :
  includes ".js" n = false ->
  replace ".js" EmptyString (m ++ ".js") = n -> m = n.
Proof.
  intros N E. destruct (includes ".js" m) eqn:I.
  - apply replace_js_key_inside in I. rewrite E in I. congruence.
  - rewrite replace_js_key in E by exact I. exact E.
Qed.

Lemma keys_set_incl (k v x : string) (o : obj) :
  In x (keys (set k v o)) -> x = k \/ In x (keys o).
Proof.
  unfold set. destruct (has k o).
  - rewrite keys_update. now right.
  - destruct (array_index k).
    + now rewrite keys_insert_index.
    + unfold keys. rewrite map_app, in_app_iff. cbn. intuition.
Qed.

Lemma keys_assign_incl (k v x : string) (o : obj) :
  In x (keys (assign k v o)) -> x = k \/ In x (keys o).
Proof.
  destruct (assign_cases k v o) as [(_ & _ & ->) | ->];
    [now right | apply keys_set_incl].
Qed.

(** An assignment drops no property. *)
Lemma keys_assign_keeps (k v x : string) (o : obj) :
  In x (keys o) -> In x (keys (assign k v o)).
Proof.
  intros I.
  destruct (in_dec string_dec x (keys (assign k v o))) as [J|J]; [exact J|].
  exfalso. apply get_None_iff in J.
  destruct (string_dec x k) as [->|N].
  - destruct (assign_cases k v o) as [(_ & G & _) | E].
    + apply get_None_iff in G. contradiction.
    + rewrite E, get_set_same in J. discriminate.
  - rewrite get_assign_other in J by exact N.
    apply get_None_iff in J. contradiction.
Qed.

Lemma has_assign_keeps (k a v : string) (o : obj) :
  has k o = true -> has k (assign a v o) = true.
Proof.
  unfold has. intros H.
  destruct (get k (assign a v o)) eqn:G; [reflexivity|].
  exfalso. apply get_None_iff in G. apply G, keys_assign_keeps.
  destruct (get k o) eqn:G'; [|discriminate].
  now apply get_Some_In with s.
Qed.

Lemma get_assign_owned (k v : string) (o : obj) :
  k <> "__proto__" \/ has k o = true -> get k (assign k v o) = Some v.
Proof.
  intros [N|H].
  - now apply get_assign_same.
  - unfold assign. rewrite H, andb_false_r. apply get_set_same.
Qed.

Lemma keys_fold_configMap_data (current : obj) (ks : list string) (acc : obj)
    (key : string) :
  In key
    (keys (fold_left
             (fun d name =>
                match get name current with
                | Some text => set (name ++ ".js") text d
                | None => d
                end) ks acc)) ->
  In key (keys acc) \/ exists name, key = (name ++ ".js")%string /\ In name ks.
Proof.
  revert acc. induction ks as [|a ks IH]; intros acc I; cbn in I.
  - now left.
  - apply IH in I. destruct I as [I|(name & E & I)].
    + destruct (get a current).
      * apply keys_set_incl in I. destruct I as [->|I]; [right | now left].
        exists a. split; [reflexivity | now left].
      * now left.
    + right. exists name. split; [exact E | now right].
Qed.

(** Every key of the serialised [data] is the key of a tracked name. *)
Lemma keys_configMap_data (current : obj) (key : string) :
  In key (keys (configMap_data current)) ->
  exists name, key = (name ++ ".js")%string /\ In name (keys current).
Proof.
  intros I. apply keys_fold_configMap_data in I.
  destruct I as [[]|I]. exact I.
Qed.

(** The serialised [data] holds under [name.js] what the map holds under
    [name], for every name, tracked or not. *)
Lemma get_configMap_data_own (current : obj) (k : string) :
  get (k ++ ".js") (configMap_data current) = get k current.
Proof.
  destruct (get k current) as [v|] eqn:G.
  - now apply get_configMap_data.
  - apply get_None_iff. intros I. apply keys_configMap_data in I.
    destruct I as (name & E & I). apply append_inj_l in E. subst name.
    apply get_None_iff in G. contradiction.
Qed.

(** Reloading keeps a plain name that the document holds. *)
Lemma get_reload_keys_plain (n text : string) (d : obj) (ks : list string)
    (m0 : obj) :
  includes ".js" n = false ->
  n <> "__proto__" ->
  (forall key, In key ks -> exists name, key = (name ++ ".js")%string) ->
  get (n ++ ".js") d = Some text ->
  In (n ++ ".js")%string ks \/ get n m0 = Some text ->
  get n (reload_keys d ks m0) = Some text.
Proof.
  intros P Q F G. revert m0. unfold reload_keys.
  induction ks as [|a ks IH]; intros m0 H; cbn.
  - destruct H as [[]|H]. exact H.
  - apply IH; [intros key I; apply F; now right|].
    destruct (string_dec a (n ++ ".js")) as [->|N].
    + right. rewrite G, replace_js_key by exact P.
      now apply get_assign_same.
    + destruct H as [[E|I]|H]; [congruence | now left | right].
      destruct (get a d); [|exact H].
      rewrite get_assign_other; [exact H|].
      intros E. destruct (F a (or_introl eq_refl)) as [name ->].
      symmetry in E. apply replace_js_key_inv in E; [|exact P]. congruence.
Qed.

(** Reloading does not bring a plain name in when no key of the document
    is its key. *)
Lemma get_reload_keys_absent (n : string) (d : obj) (ks : list string)
    (m0 : obj) :
  includes ".js" n = false ->
  (forall key, In key ks ->
     exists name, key = (name ++ ".js")%string /\ name <> n) ->
  get n m0 = None ->
  get n (reload_keys d ks m0) = None.
Proof.
  intros P. revert m0. unfold reload_keys.
  induction ks as [|a ks IH]; intros m0 F G; cbn.
  - exact G.
  - apply IH; [intros key I; apply F; now right|].
    destruct (get a d); [|exact G].
    rewrite get_assign_other; [exact G|].
    intros E. destruct (F a (or_introl eq_refl)) as (name & -> & N).
    symmetry in E. apply replace_js_key_inv in E; [|exact P]. congruence.
Qed.

Lemma wf_reload_keys (d : obj) (ks : list string) (m0 : obj) :
  wf m0 -> wf (reload_keys d ks m0).
Proof.
  revert m0. unfold reload_keys.
  induction ks as [|a ks IH]; intros m0 W; cbn; [exact W|].
  apply IH. destruct (get a d); [now apply wf_assign | exact W].
Qed.

(** Reloading never makes [__proto__] an own property. *)
Lemma get_proto_reload_keys (d : obj) (ks : list string) (m0 : obj) :
  get "__proto__" m0 = None -> get "__proto__" (reload_keys d ks m0) = None.
Proof.
  revert m0. unfold reload_keys.
  induction ks as [|a ks IH]; intros m0 G; cbn; [exact G|].
  apply IH. destruct (get a d); [now apply get_proto_assign | exact G].
Qed.

(** ** Reloading *)

Section ReloadProperties.

Context `{RT : Runtime}.

#[local] Arguments JsObject.set : simpl never.
#[local] Arguments JsObject.assign : simpl never.
#[local] Arguments JsString.replace : simpl never.

Lemma forEach_assign (d : obj) (ks : list string) (w : World) :
  exists t,
    forEach ks (fun key =>
      match get key d with
      | Some text => assign_model (replace ".js" EmptyString key) text
      | None => ret tt
      end) w
    = (inr tt,
       {| currentModels := reload_keys d ks (currentModels w);
          file := file w; outside := outside w |}, t).
Proof.
  revert w. induction ks as [|a ks IH]; intros w; cbn.
  - exists []. unfold ret. now destruct w.
  - unfold bind. destruct (get a d) as [text|].
    + cbn. destruct (IH {| currentModels :=
                             assign (replace ".js" EmptyString a) text
                               (currentModels w);
                           file := file w; outside := outside w |})
        as [t E].
      rewrite E. cbn. eexists. reflexivity.
    + cbn. destruct (IH w) as [t E]. rewrite E. cbn. eexists. reflexivity.
Qed.

(** [loadExistingModels] never throws, and what it leaves in memory is the
    map it found with the entries of the document assigned over it.
    Nothing is removed. *)
Lemma loadExistingModels_spec (w : World) :
  exists result t,
    loadExistingModels w
    = (inr result,
       {| currentModels :=
            match persisted_data (file w) with
            | Some d => reload_keys d (keys d) (currentModels w)
            | None => currentModels w
            end;
          file := file w; outside := outside w |}, t).
Proof.
  unfold loadExistingModels, try_catch, bind, read_configMap, persisted_data.
  destruct (file w) as [message|[cm|]] eqn:F.
  - cbn. rewrite <- F. do 2 eexists. now destruct w.
  - destruct (data cm) as [d|] eqn:D.
    + destruct (forEach_assign d (keys d) w) as [t E].
      rewrite E. cbn. rewrite <- F. do 2 eexists. reflexivity.
    + cbn. rewrite <- F. do 2 eexists. now destruct w.
  - cbn. rewrite <- F. do 2 eexists. now destruct w.
Qed.

(** [GET /api/models] answers with the map the reload leaves. *)
Lemma list_models_spec (w : World) :
  response_of (list_models w)
    = ModelsOk (currentModels (world_after (list_models w))) /\
  currentModels (world_after (list_models w))
    = match persisted_data (file w) with
      | Some d => reload_keys d (keys d) (currentModels w)
      | None => currentModels w
      end /\
  file (world_after (list_models w)) = file w.
Proof.
  destruct (loadExistingModels_spec w) as (result & t & E).
  unfold list_models, respond, bind, models, response_of, world_after.
  rewrite E. cbn. repeat split.
Qed.

Lemma startup_spec (f : File) (o : Outside) :
  currentModels (startup f o)
    = match persisted_data f with
      | Some d => reload_keys d (keys d) []
      | None => []
      end.
Proof.
  unfold startup.
  destruct (loadExistingModels_spec
              {| currentModels := []; file := f; outside := o |})
    as (result & t & E).
  rewrite E. reflexivity.
Qed.

(** A name that [GET /api/models] adds or keeps is never one it drops:
    every name tracked before the reload is tracked after it. *)
Lemma list_models_keeps_names (name : string) (w : World) :
  In name (keys (currentModels w)) ->
  In name (keys (currentModels (world_after (list_models w)))).
Proof.
  destruct (list_models_spec w) as (_ & -> & _).
  destruct (persisted_data (file w)) as [d|]; [|auto].
  unfold reload_keys. generalize (keys d) (currentModels w).
  induction l as [|a l IH]; intros m I; cbn; [exact I|].
  apply IH. destruct (get a d) as [text|]; [|exact I].
  now apply keys_assign_keeps.
Qed.

End ReloadProperties.

(** ** The handlers *)

Section ServerProperties.

Context `{RT : Runtime}.

#[local] Arguments command_line : simpl never.
#[local] Arguments mountPath_of : simpl never.
#[local] Arguments configMap_of : simpl never.
#[local] Arguments JsObject.set : simpl never.
#[local] Arguments JsObject.assign : simpl never.
#[local] Arguments JsObject.delete : simpl never.
#[local] Arguments String.append : simpl never.
#[local] Arguments volumeMounts_of : simpl never.

(** Running a handler symbolically: unfold the monad, then split on each
    thing the surroundings decide, in program order. *)
Ltac unfold_run :=
  unfold deploy, delete_model_handler, respond, deploy_steps, delete_steps,
    checkIfModelMountExists, executeCommand, write_configMap, assign_model,
    delete_model, models, try_catch, bind, ret, throw,
    response_of, world_after, trace_of;
  cbn.

Ltac run_step :=
  match goal with
  | |- context [writeFileSync_error ?o] =>
      destruct (writeFileSync_error o) eqn:?
  | |- context [exec ?c ?f ?o] =>
      destruct (exec c f o) as [[?|?] ?] eqn:?
  | |- context [includes ?p ?s] =>
      destruct (includes p s) eqn:?
  | |- context [volumeMounts_of ?s] =>
      destruct (volumeMounts_of s) eqn:?
  | |- context [findIndex ?p ?l] =>
      destruct (findIndex p l) eqn:?
  end; cbn.

Ltac run := unfold_run; repeat run_step.

(** Following the outcomes the surroundings are known to give. *)
Ltac follow :=
  repeat match goal with
         | H : writeFileSync_error _ = _ |- _ => rewrite H; cbn
         | H : exec _ _ _ = _ |- _ => rewrite H; cbn
         | H : includes _ _ = _ |- _ => rewrite H; cbn
         end.

(** A deployment whose write and first two commands succeed, and whose
    query reports the model's path, goes straight to the rollout wait. *)
Lemma deploy_run_registered
    (modelName code applied restarted yaml : string) (waited : Outcome)
    (w : World) (o1 o2 o3 o4 : Outside) :
  writeFileSync_error (outside w) = None ->
  exec (command_line KubectlApply) (deployed_document modelName code w)
    (outside w) = (inr applied, o1) ->
  exec (command_line RolloutRestart) (deployed_document modelName code w) o1
    = (inr restarted, o2) ->
  exec (command_line GetDeploymentYaml) (deployed_document modelName code w) o2
    = (inr yaml, o3) ->
  includes (mountPath_of modelName) yaml = true ->
  exec (command_line RolloutStatus) (deployed_document modelName code w) o3
    = (waited, o4) ->
  deploy modelName code w
  = (match waited with
     | inl failure => ServerError failure
     | inr out =>
         DeployOk "Deployment successful"
           [("apply", applied); ("restart", restarted); ("status", out)]
     end,
     {| currentModels := assign modelName code (currentModels w);
        file := deployed_document modelName code w; outside := o4 |},
     [MemSet modelName code;
      FileWrite (configMap_of (assign modelName code (currentModels w)));
      Exec KubectlApply (inr applied); Exec RolloutRestart (inr restarted);
      Exec GetDeploymentYaml (inr yaml); Exec RolloutStatus waited]).
Proof.
  unfold deployed_document. intros W A R Q I S.
  unfold_run. follow. now destruct waited.
Qed.

(** A deployment whose write and first two commands succeed, and whose
    query leaves the mount unreported (its output does not mention the
    model's path, or the command failed), patches the mount in and then
    waits for the rollout. *)
Lemma deploy_run_patching
    (modelName code applied restarted : string) (query patched : Outcome)
    (w : World) (o1 o2 o3 o4 : Outside) :
  writeFileSync_error (outside w) = None ->
  exec (command_line KubectlApply) (deployed_document modelName code w)
    (outside w) = (inr applied, o1) ->
  exec (command_line RolloutRestart) (deployed_document modelName code w) o1
    = (inr restarted, o2) ->
  exec (command_line GetDeploymentYaml) (deployed_document modelName code w) o2
    = (query, o3) ->
  match query with
  | inl _ => True
  | inr yaml => includes (mountPath_of modelName) yaml = false
  end ->
  exec (command_line (PatchAddMount modelName))
    (deployed_document modelName code w) o3 = (patched, o4) ->
  match patched with
  | inl failure =>
      deploy modelName code w
      = (ServerError failure,
         {| currentModels := assign modelName code (currentModels w);
            file := deployed_document modelName code w; outside := o4 |},
         [MemSet modelName code;
          FileWrite (configMap_of (assign modelName code (currentModels w)));
          Exec KubectlApply (inr applied); Exec RolloutRestart (inr restarted);
          Exec GetDeploymentYaml query;
          Exec (PatchAddMount modelName) (inl failure)])
  | inr mounted =>
      forall waited o5,
        exec (command_line RolloutStatus) (deployed_document modelName code w)
          o4 = (waited, o5) ->
        deploy modelName code w
        = (match waited with
           | inl failure => ServerError failure
           | inr out =>
               DeployOk "Deployment successful"
                 [("apply", applied); ("restart", restarted);
                  ("mount", mounted); ("status", out)]
           end,
           {| currentModels := assign modelName code (currentModels w);
              file := deployed_document modelName code w; outside := o5 |},
           [MemSet modelName code;
            FileWrite (configMap_of (assign modelName code (currentModels w)));
            Exec KubectlApply (inr applied);
            Exec RolloutRestart (inr restarted);
            Exec GetDeploymentYaml query;
            Exec (PatchAddMount modelName) (inr mounted);
            Exec RolloutStatus waited])
  end.
Proof.
  unfold deployed_document. intros W A R Q I P.
  destruct patched as [failure|mounted]; [|intros waited o5 S];
    unfold_run; destruct query as [e|yaml]; follow;
    try reflexivity; now destruct waited.
Qed.

(** C1 (as amended). Take a deployment whose document is written and whose
    apply, restart and query commands succeed, the query printing [yaml].
    When [yaml] mentions the model's path, the rollout wait is the only
    command that follows, and if it succeeds the [steps] are apply,
    restart, status, each with the output of its command. When [yaml] does
    not mention the path, the patch that adds the mount follows the query,
    and if it and the rollout wait succeed the [steps] are apply, restart,
    mount, status. Whenever such a call answers with [steps] at all, every
    command it ran succeeded and the labels have a mount step, between
    restart and status, exactly when [yaml] does not mention the path. The
    in-memory map plays no part in it. *)
Theorem deploy_steps_follow_mount_query
    (modelName code applied restarted yaml : string) (w : World)
    (o1 o2 o3 : Outside) :
  writeFileSync_error (outside w) = None ->
  exec (command_line KubectlApply) (deployed_document modelName code w)
    (outside w) = (inr applied, o1) ->
  exec (command_line RolloutRestart) (deployed_document modelName code w) o1
    = (inr restarted, o2) ->
  exec (command_line GetDeploymentYaml) (deployed_document modelName code w) o2
    = (inr yaml, o3) ->
  (includes (mountPath_of modelName) yaml = true ->
   forall waited o4,
     exec (command_line RolloutStatus) (deployed_document modelName code w) o3
       = (inr waited, o4) ->
     response_of (deploy modelName code w)
       = DeployOk "Deployment successful"
           [("apply", applied); ("restart", restarted); ("status", waited)] /\
     trace_of (deploy modelName code w)
       = [MemSet modelName code;
          FileWrite (configMap_of (assign modelName code (currentModels w)));
          Exec KubectlApply (inr applied); Exec RolloutRestart (inr restarted);
          Exec GetDeploymentYaml (inr yaml);
          Exec RolloutStatus (inr waited)]) /\
  (includes (mountPath_of modelName) yaml = false ->
   forall mounted waited o4 o5,
     exec (command_line (PatchAddMount modelName))
       (deployed_document modelName code w) o3 = (inr mounted, o4) ->
     exec (command_line RolloutStatus) (deployed_document modelName code w) o4
       = (inr waited, o5) ->
     response_of (deploy modelName code w)
       = DeployOk "Deployment successful"
           [("apply", applied); ("restart", restarted); ("mount", mounted);
            ("status", waited)] /\
     trace_of (deploy modelName code w)
       = [MemSet modelName code;
          FileWrite (configMap_of (assign modelName code (currentModels w)));
          Exec KubectlApply (inr applied); Exec RolloutRestart (inr restarted);
          Exec GetDeploymentYaml (inr yaml);
          Exec (PatchAddMount modelName) (inr mounted);
          Exec RolloutStatus (inr waited)]) /\
  (forall message steps,
     response_of (deploy modelName code w) = DeployOk message steps ->
     commands_succeeded (trace_of (deploy modelName code w)) = true /\
     labels steps =
       ["apply"; "restart"]
       ++ (if includes (mountPath_of modelName) yaml then [] else ["mount"])
       ++ ["status"] /\
     (In "mount" (labels steps) <->
      includes (mountPath_of modelName) yaml = false)).
Proof.
  intros W A R Q. split; [|split].
  - intros I waited o4 S.
    rewrite (deploy_run_registered _ _ _ _ _ _ _ _ _ _ _ W A R Q I S).
    split; reflexivity.
  - intros I mounted waited o4 o5 P S.
    pose proof (deploy_run_patching _ _ _ _ (inr yaml) (inr mounted)
                  _ _ _ _ _ W A R Q I P) as D.
    cbn in D. rewrite (D _ _ S). split; reflexivity.
  - unfold deployed_document in *. intros message steps.
    unfold_run. follow.
    destruct (includes (mountPath_of modelName) yaml) eqn:I; cbn;
      repeat run_step; intros E; try discriminate E;
      injection E as <- <-; cbn; repeat split; try discriminate;
      try (intros _; tauto).
    intros [E|[E|[E|[]]]]; discriminate E.
Qed.

(** The map a deployment leaves is the map it found with the assignment
    done, however the call went. *)
Lemma deploy_assigns (modelName code : string) (w : World) :
  currentModels (world_after (deploy modelName code w))
    = assign modelName code (currentModels w).
Proof.
  run; reflexivity.
Qed.

(** The entry a deployment writes is in the map it leaves, whatever
    happens afterwards, under every name but [__proto__]. *)
Lemma deploy_keeps_entry (modelName code : string) (w : World) :
  modelName <> "__proto__" ->
  get modelName (currentModels (world_after (deploy modelName code w)))
    = Some code.
Proof.
  intros N. rewrite deploy_assigns. now apply get_assign_same.
Qed.

Lemma persisted_text_configMap_of (modelName code : string) (current : obj) :
  get modelName current = Some code ->
  persisted_text modelName (Parsed (Some (configMap_of current))) = Some code.
Proof.
  intros G. unfold persisted_text, persisted_data, configMap_of. cbn.
  now apply get_configMap_data.
Qed.

(** The trace of a deployment that ran a command starts with the
    assignment in memory and the write of the whole document; only commands
    follow, and the document left behind is the one written. *)
Lemma deploy_trace_shape (modelName code : string) (w : World) (c : Command)
    (r : Outcome) :
  In (Exec c r) (trace_of (deploy modelName code w)) ->
  exists doc execs,
    trace_of (deploy modelName code w)
      = MemSet modelName code :: FileWrite doc :: execs /\
    Forall is_exec execs /\
    doc = configMap_of (assign modelName code (currentModels w)) /\
    file (world_after (deploy modelName code w)) = Parsed (Some doc) /\
    (modelName <> "__proto__" ->
     persisted_text modelName (file (world_after (deploy modelName code w)))
       = Some code).
Proof.
  assert (P : modelName <> "__proto__" ->
              persisted_text modelName
                (Parsed (Some (configMap_of
                                 (assign modelName code (currentModels w)))))
              = Some code)
    by (intros N; now apply persisted_text_configMap_of, get_assign_same).
  revert P. run; intros P I.
  all: try (destruct I as [E|[]]; discriminate E).
  all: do 2 eexists; repeat split; [repeat constructor | exact P].
Qed.


(** A failing command other than the mount-existence query is the last
    thing a deployment does, and its error is the answer. *)
Lemma deploy_failure_is_final (modelName code : string) (w : World)
    (c : Command) (message : string) :
  In (Exec c (inl message)) (trace_of (deploy modelName code w)) ->
  c <> GetDeploymentYaml ->
  response_of (deploy modelName code w) = ServerError message /\
  last_event (trace_of (deploy modelName code w))
    = Some (Exec c (inl message)).
Proof.
  run; intros I N; cbn in I;
    repeat (destruct I as [I|I]; try discriminate I;
            try (injection I as <- <-); try contradiction;
            try (split; reflexivity)).
Qed.


(** C3 (as amended). When the rollout-wait command of a deployment fails
    or times out, the call fails: the answer is the error of that command
    and carries no [steps]; the command is the last thing done, no command
    before it failed except possibly the swallowed query, and nothing is
    undone: the map is the one the assignment left and the document is the
    one written, so that under every name but [__proto__] both still hold
    the new text. This is what happens whenever the document is written
    and the apply, restart and, where it runs, patch commands succeed,
    whether the query reported the mount or not. *)
Theorem rollout_wait_failure_fails_deploy
    (modelName code message : string) (w : World) :
  (In (Exec RolloutStatus (inl message))
     (trace_of (deploy modelName code w)) ->
   response_of (deploy modelName code w) = ServerError message /\
   last_event (trace_of (deploy modelName code w))
     = Some (Exec RolloutStatus (inl message)) /\
   (forall c message',
      In (Exec c (inl message')) (trace_of (deploy modelName code w)) ->
      c = GetDeploymentYaml \/ c = RolloutStatus) /\
   currentModels (world_after (deploy modelName code w))
     = assign modelName code (currentModels w) /\
   file (world_after (deploy modelName code w))
     = deployed_document modelName code w /\
   (modelName <> "__proto__" ->
    get modelName (currentModels (world_after (deploy modelName code w)))
      = Some code /\
    persisted_text modelName (file (world_after (deploy modelName code w)))
      = Some code)) /\
  (forall applied restarted yaml o1 o2 o3 o4,
     writeFileSync_error (outside w) = None ->
     exec (command_line KubectlApply) (deployed_document modelName code w)
       (outside w) = (inr applied, o1) ->
     exec (command_line RolloutRestart) (deployed_document modelName code w)
       o1 = (inr restarted, o2) ->
     exec (command_line GetDeploymentYaml)
       (deployed_document modelName code w) o2 = (inr yaml, o3) ->
     includes (mountPath_of modelName) yaml = true ->
     exec (command_line RolloutStatus) (deployed_document modelName code w)
       o3 = (inl message, o4) ->
     response_of (deploy modelName code w) = ServerError message /\
     trace_of (deploy modelName code w)
       = [MemSet modelName code;
          FileWrite (configMap_of (assign modelName code (currentModels w)));
          Exec KubectlApply (inr applied); Exec RolloutRestart (inr restarted);
          Exec GetDeploymentYaml (inr yaml);
          Exec RolloutStatus (inl message)]) /\
  (forall applied restarted query mounted o1 o2 o3 o4 o5,
     writeFileSync_error (outside w) = None ->
     exec (command_line KubectlApply) (deployed_document modelName code w)
       (outside w) = (inr applied, o1) ->
     exec (command_line RolloutRestart) (deployed_document modelName code w)
       o1 = (inr restarted, o2) ->
     exec (command_line GetDeploymentYaml)
       (deployed_document modelName code w) o2 = (query, o3) ->
     match query with
     | inl _ => True
     | inr yaml => includes (mountPath_of modelName) yaml = false
     end ->
     exec (command_line (PatchAddMount modelName))
       (deployed_document modelName code w) o3 = (inr mounted, o4) ->
     exec (command_line RolloutStatus) (deployed_document modelName code w)
       o4 = (inl message, o5) ->
     response_of (deploy modelName code w) = ServerError message /\
     trace_of (deploy modelName code w)
       = [MemSet modelName code;
          FileWrite (configMap_of (assign modelName code (currentModels w)));
          Exec KubectlApply (inr applied); Exec RolloutRestart (inr restarted);
          Exec GetDeploymentYaml query;
          Exec (PatchAddMount modelName) (inr mounted);
          Exec RolloutStatus (inl message)]).
Proof.
  split; [|split].
  - intros I.
    destruct (deploy_failure_is_final _ _ _ _ _ I) as [R L]; [discriminate|].
    destruct (deploy_trace_shape _ _ _ _ _ I)
      as (doc & execs & _ & _ & D & F & P).
    split; [exact R|]. split; [exact L|]. split.
    + intros c message' J.
      destruct c; try (now left); try (now right);
        (destruct (deploy_failure_is_final _ _ _ _ _ J) as [_ L'];
         [discriminate | rewrite L in L'; discriminate L']).
    + split; [apply deploy_assigns|]. split.
      * rewrite F, D. reflexivity.
      * intros N. split; [now apply deploy_keeps_entry | now apply P].
  - intros applied restarted yaml o1 o2 o3 o4 W A R Q I S.
    rewrite (deploy_run_registered _ _ _ _ _ _ _ _ _ _ _ W A R Q I S).
    split; reflexivity.
  - intros applied restarted query mounted o1 o2 o3 o4 o5 W A R Q I P S.
    pose proof (deploy_run_patching _ _ _ _ query (inr mounted)
                  _ _ _ _ _ W A R Q I P) as D.
    cbn in D. rewrite (D _ _ S). split; reflexivity.
Qed.

(** A deletion whose write and apply succeed and whose query fails goes
    straight to the restart. *)
Lemma delete_run_query_failed
    (modelName applied message : string) (restarted : Outcome) (w : World)
    (o1 o2 o3 : Outside) :
  writeFileSync_error (outside w) = None ->
  exec (command_line KubectlApply) (remaining_document modelName w)
    (outside w) = (inr applied, o1) ->
  exec (command_line GetDeploymentYaml) (remaining_document modelName w) o1
    = (inl message, o2) ->
  exec (command_line RolloutRestart) (remaining_document modelName w) o2
    = (restarted, o3) ->
  delete_model_handler modelName w
  = (match restarted with
     | inl failure => ServerError failure
     | inr _ => DeleteOk ("Model " ++ modelName ++ " deleted successfully")
     end,
     {| currentModels := delete modelName (currentModels w);
        file := remaining_document modelName w; outside := o3 |},
     [MemDelete modelName;
      FileWrite (configMap_of (delete modelName (currentModels w)));
      Exec KubectlApply (inr applied);
      Exec GetDeploymentYaml (inl message);
      Exec RolloutRestart restarted]).
Proof.
  unfold remaining_document. intros W A Q R.
  unfold_run. follow. now destruct restarted.
Qed.

(** C10. A failure of the command that queries the deployment is caught
    inside [checkIfModelMountExists], which then answers false. A
    deployment whose query fails issues the patch that adds the mount as
    its next command, and answers by what follows the query alone: with
    the error of the patch or of the rollout wait when one fails, with
    success and the four steps when neither does. A deletion whose query
    fails asks for no description and removes no mount: the restart is its
    next and last command, and decides the answer. The error of the query
    is in neither answer. *)
Theorem failed_mount_query_is_swallowed
    (modelName code message : string) (w : World) :
  (forall o,
     exec (command_line GetDeploymentYaml) (file w) (outside w)
       = (inl message, o) ->
     checkIfModelMountExists modelName w
       = (inr false,
          {| currentModels := currentModels w; file := file w; outside := o |},
          [Exec GetDeploymentYaml (inl message)])) /\
  (forall applied restarted patched o1 o2 o3 o4,
     writeFileSync_error (outside w) = None ->
     exec (command_line KubectlApply) (deployed_document modelName code w)
       (outside w) = (inr applied, o1) ->
     exec (command_line RolloutRestart) (deployed_document modelName code w)
       o1 = (inr restarted, o2) ->
     exec (command_line GetDeploymentYaml)
       (deployed_document modelName code w) o2 = (inl message, o3) ->
     exec (command_line (PatchAddMount modelName))
       (deployed_document modelName code w) o3 = (patched, o4) ->
     exists rest,
       trace_of (deploy modelName code w)
         = [MemSet modelName code;
            FileWrite (configMap_of (assign modelName code (currentModels w)));
            Exec KubectlApply (inr applied);
            Exec RolloutRestart (inr restarted);
            Exec GetDeploymentYaml (inl message);
            Exec (PatchAddMount modelName) patched] ++ rest /\
       match patched with
       | inl failure =>
           rest = [] /\
           response_of (deploy modelName code w) = ServerError failure
       | inr mounted =>
           forall waited o5,
             exec (command_line RolloutStatus)
               (deployed_document modelName code w) o4 = (waited, o5) ->
             rest = [Exec RolloutStatus waited] /\
             response_of (deploy modelName code w)
               = match waited with
                 | inl failure => ServerError failure
                 | inr out =>
                     DeployOk "Deployment successful"
                       [("apply", applied); ("restart", restarted);
                        ("mount", mounted); ("status", out)]
                 end
       end) /\
  (forall applied restarted o1 o2 o3,
     writeFileSync_error (outside w) = None ->
     exec (command_line KubectlApply) (remaining_document modelName w)
       (outside w) = (inr applied, o1) ->
     exec (command_line GetDeploymentYaml) (remaining_document modelName w) o1
       = (inl message, o2) ->
     exec (command_line RolloutRestart) (remaining_document modelName w) o2
       = (restarted, o3) ->
     trace_of (delete_model_handler modelName w)
       = [MemDelete modelName;
          FileWrite (configMap_of (delete modelName (currentModels w)));
          Exec KubectlApply (inr applied);
          Exec GetDeploymentYaml (inl message);
          Exec RolloutRestart restarted] /\
     response_of (delete_model_handler modelName w)
       = match restarted with
         | inl failure => ServerError failure
         | inr _ => DeleteOk ("Model " ++ modelName ++ " deleted successfully")
         end).
Proof.
  split; [|split].
  - intros o E. unfold checkIfModelMountExists, try_catch, bind, ret,
      executeCommand. now rewrite E.
  - intros applied restarted patched o1 o2 o3 o4 W A R Q P.
    pose proof (deploy_run_patching _ _ _ _ (inl message) patched
                  _ _ _ _ _ W A R Q I P) as D.
    destruct patched as [failure|mounted].
    + exists []. rewrite D. repeat split.
    + destruct (exec (command_line RolloutStatus)
                  (deployed_document modelName code w) o4)
        as [waited o5] eqn:S.
      exists [Exec RolloutStatus waited].
      rewrite (D _ _ eq_refl). split; [reflexivity|].
      intros waited' o5' E. injection E as <- <-. split; reflexivity.
  - intros applied restarted o1 o2 o3 W A Q R.
    rewrite (delete_run_query_failed _ _ _ _ _ _ _ _ W A Q R).
    split; reflexivity.
Qed.

Lemma document_tracks_models_after_write (current : obj) (o : Outside) :
  wf current ->
  document_tracks_models
    {| currentModels := current;
       file := Parsed (Some (configMap_of current));
       outside := o |}.
Proof.
  intros W. exists (map js_entry current).
  unfold persisted_data, configMap_of. cbn.
  rewrite configMap_data_wf by exact W.
  repeat split.
  - apply keys_js_entries.
  - rewrite keys_js_entries. now apply NoDup_js_keys.
  - apply length_map.
Qed.

(** C5. After a successful deployment or deletion on a well-formed map,
    the [data] of the persisted document has exactly the keys [name.js] of
    the tracked names, each once, as many as the map has entries; after a
    deletion the key of the deleted name is not among them. *)
Theorem persisted_keys_are_tracked_names (w : World) :
  wf (currentModels w) ->
  (forall modelName code message steps,
     response_of (deploy modelName code w) = DeployOk message steps ->
     document_tracks_models (world_after (deploy modelName code w))) /\
  (forall modelName message,
     response_of (delete_model_handler modelName w) = DeleteOk message ->
     document_tracks_models (world_after (delete_model_handler modelName w)) /\
     persisted_text modelName
       (file (world_after (delete_model_handler modelName w))) = None).
Proof.
  intros W. split.
  - intros modelName code message steps.
    pose proof (wf_assign modelName code _ W) as W'.
    run; intros R; try discriminate R;
      now apply document_tracks_models_after_write.
  - intros modelName message.
    pose proof (wf_delete modelName _ W) as W'.
    assert (P : persisted_text modelName
                  (Parsed (Some (configMap_of
                                   (delete modelName (currentModels w)))))
                = None).
    { unfold persisted_text, persisted_data, configMap_of. cbn.
      rewrite configMap_data_wf by exact W'.
      apply get_None_iff. rewrite keys_js_entries, in_map_iff.
      intros (x & E & I). apply append_inj_l in E. subst x.
      apply keys_delete in I. tauto. }
    revert P. run; intros P R; try discriminate R;
      (split; [now apply document_tracks_models_after_write | exact P]).
Qed.

(** ** What holds of the round trip and of deletion *)

Lemma deploy_ok_world (modelName code message : string) (steps : list Step)
    (w : World) :
  response_of (deploy modelName code w) = DeployOk message steps ->
  currentModels (world_after (deploy modelName code w))
    = assign modelName code (currentModels w) /\
  file (world_after (deploy modelName code w))
    = Parsed (Some (configMap_of (assign modelName code (currentModels w)))).
Proof.
  run; intros R; try discriminate R; split; reflexivity.
Qed.

Lemma delete_ok_world (modelName message : string) (w : World) :
  response_of (delete_model_handler modelName w) = DeleteOk message ->
  currentModels (world_after (delete_model_handler modelName w))
    = delete modelName (currentModels w) /\
  file (world_after (delete_model_handler modelName w))
    = Parsed (Some (configMap_of (delete modelName (currentModels w)))).
Proof.
  run; intros R; try discriminate R; split; reflexivity.
Qed.

(** A name that does not contain [.js] and is not [__proto__] round-trips:
    after a successful deployment, a server started on the persisted
    document, and the running server after a reload, both hold the deployed
    text under the name. *)
Theorem plain_name_round_trips
    (modelName code message : string) (steps : list Step) (w : World)
    (o : Outside) :
  includes ".js" modelName = false ->
  modelName <> "__proto__" ->
  response_of (deploy modelName code w) = DeployOk message steps ->
  get modelName
    (currentModels (startup (file (world_after (deploy modelName code w))) o))
    = Some code /\
  get modelName
    (currentModels
       (world_after (list_models (world_after (deploy modelName code w)))))
    = Some code.
Proof.
  intros P Q R. destruct (deploy_ok_world _ _ _ _ _ R) as [M F].
  assert (G : get (modelName ++ ".js")
                (configMap_data (assign modelName code (currentModels w)))
              = Some code)
    by (apply get_configMap_data; now apply get_assign_same).
  assert (K : forall key,
             In key (keys (configMap_data
                             (assign modelName code (currentModels w)))) ->
             exists name, key = (name ++ ".js")%string).
  { intros key I. apply keys_configMap_data in I.
    destruct I as (name & E & _). now exists name. }
  split.
  - rewrite startup_spec, F. cbn.
    apply get_reload_keys_plain; [exact P | exact Q | exact K | exact G | left].
    now apply get_Some_In with code.
  - destruct (list_models_spec (world_after (deploy modelName code w)))
      as (_ & -> & _).
    rewrite F. cbn.
    apply get_reload_keys_plain; [exact P | exact Q | exact K | exact G | left].
    now apply get_Some_In with code.
Qed.

(** A deleted name that does not contain [.js] is not in the answer of the
    next [GET /api/models]. *)
Theorem deleted_plain_name_is_not_listed
    (modelName message : string) (w : World) :
  includes ".js" modelName = false ->
  response_of (delete_model_handler modelName w) = DeleteOk message ->
  get modelName
    (currentModels
       (world_after
          (list_models (world_after (delete_model_handler modelName w)))))
    = None.
Proof.
  intros P R. destruct (delete_ok_world _ _ _ R) as [M F].
  destruct (list_models_spec (world_after (delete_model_handler modelName w)))
    as (_ & -> & _).
  rewrite F, M. cbn.
  apply get_reload_keys_absent; [exact P | | apply get_delete_same].
  intros key I. apply keys_configMap_data in I.
  destruct I as (name & E & I). exists name. split; [exact E|].
  apply keys_delete in I. tauto.
Qed.

(** Deleting a name that is not tracked leaves the map as it is, and the
    call succeeds when the document can be written, every command it runs
    succeeds and the description of the deployment, if the call fetched
    one, can be read. *)
Theorem delete_of_absent_name_is_noop (modelName : string) (w : World) :
  get modelName (currentModels w) = None ->
  currentModels (world_after (delete_model_handler modelName w))
    = currentModels w /\
  (writeFileSync_error (outside w) = None ->
   commands_succeeded (trace_of (delete_model_handler modelName w)) = true ->
   (forall json,
      In (Exec GetDeploymentJson (inr json))
        (trace_of (delete_model_handler modelName w)) ->
      exists mounts, volumeMounts_of json = inr mounts) ->
   response_of (delete_model_handler modelName w)
     = DeleteOk ("Model " ++ modelName ++ " deleted successfully")).
Proof.
  intros G. pose proof (delete_absent _ _ G) as D. revert D.
  run; intros D; (split; [exact D|]); intros W S V;
    try discriminate; try reflexivity.
  all: exfalso;
    match goal with
    | H : volumeMounts_of ?json = inl _ |- _ =>
        destruct (V json) as [mounts E]; [cbn; tauto | congruence]
    end.
Qed.

(** The map of a freshly started server is well formed. *)
Lemma startup_wf (f : File) (o : Outside) : wf (currentModels (startup f o)).
Proof.
  rewrite startup_spec.
  destruct (persisted_data f); [apply wf_reload_keys|]; constructor.
Qed.

(** The handlers keep the in-memory map well formed. *)
Lemma handlers_preserve_wf (w : World) :
  wf (currentModels w) ->
  (forall modelName code,
     wf (currentModels (world_after (deploy modelName code w)))) /\
  (forall modelName,
     wf (currentModels (world_after (delete_model_handler modelName w)))) /\
  wf (currentModels (world_after (list_models w))).
Proof.
  intros W. repeat split.
  - intros modelName code. pose proof (wf_assign modelName code _ W). now run.
  - intros modelName. pose proof (wf_delete modelName _ W). now run.
  - destruct (list_models_spec w) as (_ & -> & _).
    destruct (persisted_data (file w)); [now apply wf_reload_keys | exact W].
Qed.

(** Whatever happened to a server since it started, its map is well
    formed. *)
Lemma history_wf (actions : list Action) (w : World) :
  wf (currentModels w) -> wf (currentModels (history actions w)).
Proof.
  unfold history. revert w.
  induction actions as [|a actions IH]; intros w W; cbn; [exact W|].
  apply IH. destruct (handlers_preserve_wf w W) as (D & X & L).
  destruct a; cbn; auto.
Qed.

(** The handlers never make [__proto__] an own property of the map. *)
Lemma handlers_never_own_proto (w : World) :
  get "__proto__" (currentModels w) = None ->
  (forall modelName code,
     get "__proto__"
       (currentModels (world_after (deploy modelName code w))) = None) /\
  (forall modelName,
     get "__proto__"
       (currentModels (world_after (delete_model_handler modelName w)))
     = None) /\
  get "__proto__" (currentModels (world_after (list_models w))) = None.
Proof.
  intros G. repeat split.
  - intros modelName code. rewrite deploy_assigns.
    now apply get_proto_assign.
  - intros modelName.
    pose proof (get_None_iff "__proto__"
                  (delete modelName (currentModels w))) as D.
    assert (E : get "__proto__" (delete modelName (currentModels w)) = None).
    { apply D. rewrite keys_delete. intros [_ I].
      apply get_None_iff in G. contradiction. }
    revert E. run; auto.
  - destruct (list_models_spec w) as (_ & -> & _).
    destruct (persisted_data (file w));
      [now apply get_proto_reload_keys | exact G].
Qed.

Lemma history_never_owns_proto (actions : list Action) (w : World) :
  get "__proto__" (currentModels w) = None ->
  get "__proto__" (currentModels (history actions w)) = None.
Proof.
  unfold history. revert w.
  induction actions as [|a actions IH]; intros w G; cbn; [exact G|].
  apply IH. destruct (handlers_never_own_proto w G) as (D & X & L).
  destruct a; cbn; auto.
Qed.

(** Whatever happened to a server since it started, it does not track
    [__proto__], and a deployment under that name changes nothing in
    memory: the call runs its commands and answers like any other, the
    document it writes has no entry for the name, the list does not show
    it, and [GET /api/models/__proto__] answers 200 without a text. *)
Theorem proto_is_never_tracked
    (f : File) (o : Outside) (actions : list Action) (code : string) :
  get "__proto__" (currentModels (history actions (startup f o))) = None /\
  currentModels
    (world_after (deploy "__proto__" code (history actions (startup f o))))
    = currentModels (history actions (startup f o)) /\
  (forall message steps,
     response_of (deploy "__proto__" code (history actions (startup f o)))
       = DeployOk message steps ->
     persisted_text "__proto__"
       (file (world_after
                (deploy "__proto__" code (history actions (startup f o)))))
     = None /\
     forall current,
       response_of
         (list_models
            (world_after
               (deploy "__proto__" code (history actions (startup f o)))))
         = ModelsOk current ->
       get "__proto__" current = None) /\
  response_of
    (get_model "__proto__"
       (world_after (deploy "__proto__" code (history actions (startup f o)))))
    = MemberOk "__proto__".
Proof.
  assert (G : get "__proto__" (currentModels (history actions (startup f o)))
              = None).
  { apply history_never_owns_proto. rewrite startup_spec.
    destruct (persisted_data f); [now apply get_proto_reload_keys|];
      reflexivity. }
  assert (M : currentModels
                (world_after
                   (deploy "__proto__" code (history actions (startup f o))))
              = currentModels (history actions (startup f o)))
    by (rewrite deploy_assigns; now apply assign_proto).
  split; [exact G | split; [exact M | split]].
  - intros message steps R. destruct (deploy_ok_world _ _ _ _ _ R) as [_ F].
    split.
    + rewrite F. unfold persisted_text, persisted_data, configMap_of. cbn.
      rewrite get_configMap_data_own. now apply get_proto_assign.
    + intros current L.
      destruct (list_models_spec
                  (world_after
                     (deploy "__proto__" code
                        (history actions (startup f o)))))
        as (L' & K & _).
      rewrite L' in L. injection L as <-. rewrite K.
      destruct (persisted_data _);
        [apply get_proto_reload_keys|]; now rewrite M.
  - unfold get_model, response_of, lookup. cbn. now rewrite M, G.
Qed.

(** After any sequence of requests and out-of-band edits since start-up,
    a successful deployment or deletion leaves a document that has exactly
    the keys of the tracked names. *)
Theorem document_tracks_models_in_every_history
    (f : File) (o : Outside) (actions : list Action) :
  (forall modelName code message steps,
     response_of (deploy modelName code (history actions (startup f o)))
       = DeployOk message steps ->
     document_tracks_models
       (world_after (deploy modelName code
                       (history actions (startup f o))))) /\
  (forall modelName message,
     response_of (delete_model_handler modelName
                    (history actions (startup f o)))
       = DeleteOk message ->
     document_tracks_models
       (world_after (delete_model_handler modelName
                       (history actions (startup f o))))).
Proof.
  pose proof (history_wf actions _ (startup_wf f o)) as W.
  split.
  - intros modelName code message steps R.
    destruct (deploy_ok_world _ _ _ _ _ R) as [M F].
    destruct (world_after (deploy modelName code
                             (history actions (startup f o))))
      as [m fl ou]. cbn in M, F. subst m fl.
    apply document_tracks_models_after_write. now apply wf_assign.
  - intros modelName message R.
    destruct (delete_ok_world _ _ _ R) as [M F].
    destruct (world_after (delete_model_handler modelName
                             (history actions (startup f o))))
      as [m fl ou]. cbn in M, F. subst m fl.
    apply document_tracks_models_after_write. now apply wf_delete.
Qed.

End ServerProperties.

(** ** The read handlers and the validators *)

Section ReadProperties.

Context `{RT : Runtime}.

(** C9 (the case the code misses). A model whose stored text is the empty
    string is in the map, and [GET /api/models/:name] still answers that it
    was not found: the handler tests the text for truthiness, not the map
    for the property. *)
Theorem get_model_misses_empty_text (modelName : string) (w : World) :
  get modelName (currentModels w) = Some EmptyString ->
  In modelName (keys (currentModels w)) /\
  response_of (get_model modelName w)
    = NotFound ("Model " ++ modelName ++ " not found").
Proof.
  intros G. split.
  - now apply get_Some_In with EmptyString.
  - unfold get_model, response_of, lookup. cbn. now rewrite G.
Qed.

(** What does hold of [GET /api/models/:name]: a non-empty stored text is
    returned; a name the map does not own is not found, unless it names a
    member of [Object.prototype], which the handler then takes for a model
    and answers 200 without a text; and the handler neither reads the
    document nor changes anything. *)
Lemma get_model_spec (modelName : string) (w : World) :
  (forall text,
     get modelName (currentModels w) = Some text -> text <> EmptyString ->
     response_of (get_model modelName w) = ModelOk text) /\
  (get modelName (currentModels w) = None ->
   inherited modelName = false ->
   response_of (get_model modelName w)
     = NotFound ("Model " ++ modelName ++ " not found")) /\
  (get modelName (currentModels w) = None ->
   inherited modelName = true ->
   response_of (get_model modelName w) = MemberOk modelName) /\
  world_after (get_model modelName w) = w /\
  trace_of (get_model modelName w) = [] /\
  (forall f,
     response_of (get_model modelName (edited_out_of_band f w))
       = response_of (get_model modelName w)).
Proof.
  unfold get_model, response_of, world_after, trace_of, lookup. cbn.
  repeat split.
  - intros text G N. rewrite G. destruct text; [contradiction | reflexivity].
  - intros G I. now rewrite G, I.
  - intros G I. now rewrite G, I.
Qed.

(** C8 (the case the endpoint misses). A text with a [cube(] marker that
    parses but has neither [sql:] nor [cubes:] is accepted by
    [POST /api/validate], while the editor's [validateModel] rejects it for
    the missing structure. *)
Theorem validate_endpoint_skips_structure_check (code : string) :
  includes "cube(" code = true ->
  includes "sql:" code = false ->
  includes "cubes:" code = false ->
  new_Function code = None ->
  validate code = Validation true "Model is valid" /\
  validateModel code
    = (false, "Model must contain SQL definition or cube references").
Proof.
  intros C S Q P. unfold validate, validateModel.
  rewrite C, S, Q, P. split; reflexivity.
Qed.

(** What does hold of the editor's [validateModel]: it succeeds exactly on
    the texts that have one of the two markers, one of the two structural
    markers, and parse. *)
Lemma validateModel_spec (code : string) :
  fst (validateModel code) = true <->
  (includes "cube(" code = true \/ includes "view(" code = true) /\
  (includes "sql:" code = true \/ includes "cubes:" code = true) /\
  new_Function code = None.
Proof.
  unfold validateModel.
  destruct (includes "cube(" code), (includes "view(" code),
    (includes "sql:" code), (includes "cubes:" code),
    (new_Function code); cbn; intuition congruence.
Qed.

(** The endpoint checks the markers and the parse only. *)
Lemma validate_spec (code : string) :
  (exists message, validate code = Validation true message) <->
  (includes "cube(" code = true \/ includes "view(" code = true) /\
  new_Function code = None.
Proof.
  unfold validate.
  destruct (includes "cube(" code), (includes "view(" code),
    (new_Function code); cbn;
    (split; [intros [m E]; try discriminate E; intuition congruence
            | intros [A B]; try discriminate B;
              try (destruct A; discriminate);
              eexists; reflexivity]).
Qed.

End ReadProperties.

(** ** Runs on concrete surroundings *)

Import Scenario.

(** C1: the in-memory map is empty, every command succeeds, and the
    deployment has no mount step, because the cluster already mounts the
    model. *)
Lemma deploy_on_empty_map_skips_mount :
  currentModels (empty_process widget_mounted tt) = [] /\
  commands_succeeded
    (trace_of (@deploy widget_mounted "Widget" widget_text
                 (empty_process widget_mounted tt))) = true /\
  response_of (@deploy widget_mounted "Widget" widget_text
                 (empty_process widget_mounted tt))
    = DeployOk "Deployment successful"
        [("apply", "done"); ("restart", "done"); ("status", "done")].
Proof. repeat split. Qed.

Lemma deploy_steps_follow_mount_query_witness :
  (response_of (@deploy fresh_cluster "Widget" widget_text
                  (empty_process fresh_cluster tt))
     = DeployOk "Deployment successful"
         [("apply", "done"); ("restart", "done"); ("mount", "done");
          ("status", "done")] /\
   trace_of (@deploy fresh_cluster "Widget" widget_text
               (empty_process fresh_cluster tt))
     = [MemSet "Widget" widget_text;
        FileWrite (configMap_of [("Widget", widget_text)]);
        Exec KubectlApply (inr "done");
        Exec RolloutRestart (inr "done");
        Exec GetDeploymentYaml (inr "volumeMounts: []");
        Exec (PatchAddMount "Widget") (inr "done");
        Exec RolloutStatus (inr "done")]) /\
  (response_of (@deploy widget_mounted "Widget" widget_text
                  (world_of widget_mounted [("Widget", orders_text)]
                     no_document tt))
     = DeployOk "Deployment successful"
         [("apply", "done"); ("restart", "done"); ("status", "done")] /\
   trace_of (@deploy widget_mounted "Widget" widget_text
               (world_of widget_mounted [("Widget", orders_text)]
                  no_document tt))
     = [MemSet "Widget" widget_text;
        FileWrite (configMap_of [("Widget", widget_text)]);
        Exec KubectlApply (inr "done");
        Exec RolloutRestart (inr "done");
        Exec GetDeploymentYaml
          (inr "volumeMounts: [{mountPath: /cube/conf/model/Widget.js}]");
        Exec RolloutStatus (inr "done")]).
Proof.
  split.
  - exact (proj1 (proj2
             (@deploy_steps_follow_mount_query fresh_cluster
                "Widget" widget_text "done" "done" "volumeMounts: []"
                (empty_process fresh_cluster tt) tt tt tt
                eq_refl eq_refl eq_refl eq_refl))
             eq_refl "done" "done" tt tt eq_refl eq_refl).
  - exact (proj1
             (@deploy_steps_follow_mount_query widget_mounted
                "Widget" widget_text "done" "done"
                "volumeMounts: [{mountPath: /cube/conf/model/Widget.js}]"
                (world_of widget_mounted [("Widget", orders_text)]
                   no_document tt) tt tt tt
                eq_refl eq_refl eq_refl eq_refl)
             eq_refl "done" tt eq_refl).
Defined.



(** C3: every step before the rollout wait succeeds, the wait times out,
    and the call answers with the error, not with success and a [steps]
    array. *)
Lemma deploy_fails_on_rollout_timeout :
  commands_succeeded
    (removelast (trace_of (@deploy rollout_timeout "Widget" widget_text
                             (empty_process rollout_timeout tt)))) = true /\
  last_event (trace_of (@deploy rollout_timeout "Widget" widget_text
                          (empty_process rollout_timeout tt)))
    = Some (Exec RolloutStatus
              (inl "error: timed out waiting for the condition")) /\
  response_of (@deploy rollout_timeout "Widget" widget_text
                 (empty_process rollout_timeout tt))
    = ServerError "error: timed out waiting for the condition".
Proof. repeat split. Qed.

Lemma rollout_wait_failure_fails_deploy_witness :
  In (Exec RolloutStatus (inl "error: timed out waiting for the condition"))
    (trace_of (@deploy rollout_timeout "Widget" orders_text
                 (empty_process rollout_timeout tt))) /\
  response_of (@deploy rollout_timeout "Widget" orders_text
                 (empty_process rollout_timeout tt))
    = ServerError "error: timed out waiting for the condition" /\
  (get "Widget"
     (currentModels
        (world_after (@deploy rollout_timeout "Widget" orders_text
                        (empty_process rollout_timeout tt))))
     = Some orders_text /\
   persisted_text "Widget"
     (file (world_after (@deploy rollout_timeout "Widget" orders_text
                           (empty_process rollout_timeout tt))))
     = Some orders_text) /\
  trace_of (@deploy rollout_timeout "Widget" orders_text
              (empty_process rollout_timeout tt))
    = [MemSet "Widget" orders_text;
       FileWrite (configMap_of [("Widget", orders_text)]);
       Exec KubectlApply (inr "done");
       Exec RolloutRestart (inr "done");
       Exec GetDeploymentYaml (inr "volumeMounts: []");
       Exec (PatchAddMount "Widget") (inr "done");
       Exec RolloutStatus
         (inl "error: timed out waiting for the condition")].
Proof.
  assert (I : In (Exec RolloutStatus
                    (inl "error: timed out waiting for the condition"))
                (trace_of (@deploy rollout_timeout "Widget" orders_text
                             (empty_process rollout_timeout tt))))
    by (cbn; tauto).
  destruct (@rollout_wait_failure_fails_deploy rollout_timeout
              "Widget" orders_text
              "error: timed out waiting for the condition"
              (empty_process rollout_timeout tt)) as (T & _ & P).
  destruct (T I) as (R & _ & _ & _ & _ & K).
  split; [exact I | split; [exact R | split; [exact (K ltac:(discriminate))|]]].
  exact (proj2 (P "done" "done" (inr "volumeMounts: []") "done" tt tt tt tt tt
                  eq_refl eq_refl eq_refl eq_refl eq_refl eq_refl eq_refl)).
Defined.

(** C4 (the case the code misses). The server starts on a document with
    [Orders.js] and [Customers.js]; an operator then removes [Orders.js]
    from the document by hand. [GET /api/models] reloads the document into
    the map it already has, so it still answers with [Orders]. *)
Theorem list_keeps_names_removed_from_document :
  persisted_data document_after_edit
    = Some [("Customers.js", customers_text)] /\
  response_of
    (@list_models fresh_cluster
       (edited_out_of_band document_after_edit
          (@startup fresh_cluster document_at_startup tt)))
    = ModelsOk [("Orders", orders_text); ("Customers", customers_text)].
Proof. split; reflexivity. Qed.

(** C6 (the case the code misses). [orders.json] is deployed with success
    and persisted under the key [orders.json.js]; a server started on that
    document tracks it as [orderson.js], because the loader removes the
    first [.js] of the key, and does not find [orders.json]. In a running
    server that tracks [orderson.js] and [orders.json], a deployment of
    [orderson.js] followed by a reload reads back the text of
    [orders.json]. *)
Theorem name_with_js_inside_does_not_round_trip :
  response_of (@deploy fresh_cluster "orders.json" orders_text
                 (empty_process fresh_cluster tt))
    = DeployOk "Deployment successful"
        [("apply", "done"); ("restart", "done"); ("mount", "done");
         ("status", "done")] /\
  persisted_data
    (file (world_after (@deploy fresh_cluster "orders.json" orders_text
                          (empty_process fresh_cluster tt))))
    = Some [("orders.json.js", orders_text)] /\
  currentModels
    (@startup fresh_cluster
       (file (world_after (@deploy fresh_cluster "orders.json" orders_text
                             (empty_process fresh_cluster tt)))) tt)
    = [("orderson.js", orders_text)] /\
  response_of
    (get_model "orders.json"
       (@startup fresh_cluster
          (file (world_after (@deploy fresh_cluster "orders.json" orders_text
                                (empty_process fresh_cluster tt)))) tt))
    = NotFound "Model orders.json not found" /\
  response_of
    (get_model "orderson.js"
       (world_after
          (list_models
             (world_after (@deploy fresh_cluster "orderson.js" widget_text
                             two_similar_names)))))
    = ModelOk "cube(`B`,{sql:`SELECT 2`})".
Proof. repeat split. Qed.

(** C7 (the case the code misses). [orderson.js] is deleted with success
    while [orders.json] stays tracked; the next [GET /api/models] loads the
    key [orders.json.js] as [orderson.js], and the deleted name is back. *)
Theorem deleted_name_comes_back_on_list :
  response_of (@delete_model_handler fresh_cluster "orderson.js"
                 two_similar_names)
    = DeleteOk "Model orderson.js deleted successfully" /\
  currentModels
    (world_after (@delete_model_handler fresh_cluster "orderson.js"
                    two_similar_names))
    = [("orders.json", "cube(`B`,{sql:`SELECT 2`})")] /\
  response_of
    (list_models
       (world_after (@delete_model_handler fresh_cluster "orderson.js"
                       two_similar_names)))
    = ModelsOk [("orders.json", "cube(`B`,{sql:`SELECT 2`})");
                ("orderson.js", "cube(`B`,{sql:`SELECT 2`})")].
Proof. repeat split. Qed.

Lemma persisted_keys_are_tracked_names_witness :
  wf (currentModels two_similar_names) /\
  document_tracks_models
    (world_after (@deploy fresh_cluster "Widget" widget_text
                    two_similar_names)) /\
  document_tracks_models
    (world_after (@delete_model_handler fresh_cluster "orders.json"
                    two_similar_names)).
Proof.
  assert (W : wf (currentModels two_similar_names)).
  { repeat constructor; cbn; intuition discriminate. }
  destruct (@persisted_keys_are_tracked_names fresh_cluster
              two_similar_names W) as [D X].
  split; [exact W | split].
  - exact (D "Widget" widget_text _ _ eq_refl).
  - exact (proj1 (X "orders.json" _ eq_refl)).
Defined.

Lemma validate_endpoint_skips_structure_check_witness :
  @validate fresh_cluster "cube(`Widget`, {})"
    = Validation true "Model is valid" /\
  @validateModel fresh_cluster "cube(`Widget`, {})"
    = (false, "Model must contain SQL definition or cube references").
Proof.
  exact (@validate_endpoint_skips_structure_check fresh_cluster
           "cube(`Widget`, {})" eq_refl eq_refl eq_refl eq_refl).
Defined.

Lemma get_model_misses_empty_text_witness :
  In "Draft" (keys (currentModels empty_text_model)) /\
  response_of (get_model "Draft" empty_text_model)
    = NotFound "Model Draft not found".
Proof.
  exact (@get_model_misses_empty_text fresh_cluster "Draft"
           empty_text_model eq_refl).
Defined.

Lemma failed_mount_query_is_swallowed_witness :
  (trace_of (@deploy query_down "Widget" widget_text
               (empty_process query_down tt))
     = [MemSet "Widget" widget_text;
        FileWrite (configMap_of [("Widget", widget_text)]);
        Exec KubectlApply (inr "done");
        Exec RolloutRestart (inr "done");
        Exec GetDeploymentYaml (inl "Command failed: kubectl get deployment");
        Exec (PatchAddMount "Widget") (inr "done");
        Exec RolloutStatus (inr "done")] /\
   response_of (@deploy query_down "Widget" widget_text
                  (empty_process query_down tt))
     = DeployOk "Deployment successful"
         [("apply", "done"); ("restart", "done"); ("mount", "done");
          ("status", "done")]) /\
  (trace_of (@delete_model_handler query_down "Widget"
               (world_of query_down [("Widget", widget_text)]
                  no_document tt))
     = [MemDelete "Widget";
        FileWrite (configMap_of []);
        Exec KubectlApply (inr "done");
        Exec GetDeploymentYaml (inl "Command failed: kubectl get deployment");
        Exec RolloutRestart (inr "done")] /\
   response_of (@delete_model_handler query_down "Widget"
                  (world_of query_down [("Widget", widget_text)]
                     no_document tt))
     = DeleteOk "Model Widget deleted successfully").
Proof.
  destruct (@failed_mount_query_is_swallowed query_down "Widget" widget_text
              "Command failed: kubectl get deployment"
              (empty_process query_down tt)) as (_ & D & _).
  destruct (@failed_mount_query_is_swallowed query_down "Widget" widget_text
              "Command failed: kubectl get deployment"
              (world_of query_down [("Widget", widget_text)]
                 no_document tt)) as (_ & _ & X).
  split.
  - destruct (D "done" "done" (inr "done") tt tt tt tt
                eq_refl eq_refl eq_refl eq_refl eq_refl) as (rest & T & K).
    destruct (K (inr "done") tt eq_refl) as [E R]. subst rest.
    split; [exact T | exact R].
  - exact (X "done" (inr "done") tt tt tt eq_refl eq_refl eq_refl eq_refl).
Defined.

Lemma plain_name_round_trips_witness :
  includes ".js" "Widget" = false /\
  "Widget" <> "__proto__" /\
  get "Widget"
    (currentModels
       (@startup fresh_cluster
          (file (world_after (@deploy fresh_cluster "Widget" widget_text
                                two_similar_names))) tt))
    = Some widget_text /\
  get "Widget"
    (currentModels
       (world_after
          (list_models
             (world_after (@deploy fresh_cluster "Widget" widget_text
                             two_similar_names)))))
    = Some widget_text.
Proof.
  assert (N : "Widget" <> "__proto__") by discriminate.
  split; [reflexivity | split; [exact N|]].
  exact (@plain_name_round_trips fresh_cluster "Widget" widget_text
           _ _ two_similar_names tt eq_refl N eq_refl).
Defined.

Lemma deleted_plain_name_is_not_listed_witness :
  get "Widget"
    (currentModels
       (world_after
          (list_models
             (world_after
                (@delete_model_handler fresh_cluster "Widget"
                   (world_of fresh_cluster [("Widget", widget_text)]
                      no_document tt))))))
    = None.
Proof.
  exact (@deleted_plain_name_is_not_listed fresh_cluster "Widget" _
           (world_of fresh_cluster [("Widget", widget_text)] no_document tt)
           eq_refl eq_refl).
Defined.

Lemma handlers_preserve_wf_witness :
  wf (currentModels
        (world_after (@deploy fresh_cluster "Widget" widget_text
                        two_similar_names))).
Proof.
  apply (@handlers_preserve_wf fresh_cluster two_similar_names).
  repeat constructor; cbn; intuition discriminate.
Defined.

Lemma list_models_keeps_names_witness :
  In "Orders"
    (keys (currentModels
             (world_after
                (@list_models fresh_cluster
                   (edited_out_of_band document_after_edit
                      (@startup fresh_cluster document_at_startup tt)))))).
Proof.
  apply (@list_models_keeps_names fresh_cluster "Orders").
  left. reflexivity.
Defined.

(** * Further properties of the server *)

(** ** Objects, continued *)

Lemma get_js_entries (k : string) (o : obj) :
  get (k ++ ".js") (map js_entry o) = get k o.
Proof.
  induction o as [|[k' v'] o IH]; cbn; [reflexivity|].
  destruct (String.eqb_spec k k') as [->|N].
  - now rewrite String.eqb_refl.
  - destruct (String.eqb_spec (k ++ ".js") (k' ++ ".js")) as [E|_];
      [apply append_inj_l in E; contradiction | exact IH].
Qed.

Lemma update_same (k v : string) (o : obj) :
  get k o = Some v -> update k v o = o.
Proof.
  induction o as [|[k' v'] o IH]; cbn; [reflexivity|].
  destruct (String.eqb_spec k k') as [->|N]; intros G.
  - now injection G as ->.
  - now rewrite IH.
Qed.

(** Assigning twice is assigning once. *)
Lemma set_set_same (k v : string) (o : obj) :
  set k v (set k v o) = set k v o.
Proof.
  unfold set at 1. unfold has. rewrite get_set_same.
  apply update_same, get_set_same.
Qed.

Lemma assign_assign_same (k v : string) (o : obj) :
  assign k v (assign k v o) = assign k v o.
Proof.
  destruct (assign_cases k v o) as [(-> & G & E) | E]; rewrite E.
  - exact E.
  - unfold assign, has. rewrite get_set_same, andb_false_r.
    apply set_set_same.
Qed.

Lemma length_insert_index (i : N) (k v : string) (o : obj) :
  List.length (insert_index i k v o) = S (List.length o).
Proof.
  induction o as [|[k' v'] o IH]; cbn; [reflexivity|].
  destruct (array_index k') as [j|]; [destruct (j <? i)%N|]; cbn;
    now rewrite ?IH.
Qed.

Lemma length_update (k v : string) (o : obj) :
  List.length (update k v o) = List.length o.
Proof.
  rewrite <- (length_map fst (update k v o)), <- (length_map fst o).
  change (map fst (update k v o)) with (keys (update k v o)).
  now rewrite keys_update.
Qed.

(** An assignment to a property the object has keeps the keys and their
    order; an assignment to a new property adds one key. *)
Lemma set_keys (k v : string) (o : obj) :
  (has k o = true -> keys (set k v o) = keys o) /\
  (has k o = false ->
   List.length (set k v o) = S (List.length o) /\ In k (keys (set k v o))).
Proof.
  unfold set. destruct (has k o) eqn:H; split; try discriminate; intros _.
  - apply keys_update.
  - split.
    + destruct (array_index k).
      * apply length_insert_index.
      * rewrite length_app. cbn. lia.
    + destruct (array_index k).
      * apply keys_insert_index. now left.
      * unfold keys. rewrite map_app, in_app_iff. cbn. tauto.
Qed.

Lemma findIndex_spec (p : string) (l : list string) (i : nat) :
  findIndex (String.eqb p) l = Some i ->
  nth_error l i = Some p /\
  (forall j, j < i -> nth_error l j <> Some p).
Proof.
  revert i. induction l as [|a l IH]; cbn; intros i F; [discriminate|].
  destruct (String.eqb_spec p a) as [->|N].
  - injection F as <-. split; [reflexivity | intros j J; lia].
  - destruct (findIndex (String.eqb p) l) as [i'|]; [|discriminate].
    injection F as <-. destruct (IH i' eq_refl) as [A B]. split; [exact A|].
    intros [|j] J; cbn; [congruence | apply B; lia].
Qed.

Lemma findIndex_None (p : string) (l : list string) :
  findIndex (String.eqb p) l = None <-> ~ In p l.
Proof.
  induction l as [|a l IH]; cbn; [tauto|].
  destruct (String.eqb_spec p a) as [->|N].
  - split; [discriminate | intros H; exfalso; apply H; now left].
  - destruct (findIndex (String.eqb p) l).
    + split; [discriminate|]. intros H. exfalso.
      assert (E : Some n = None) by (apply IH; tauto). discriminate.
    + split; [|reflexivity]. intros _ [E|I]; [congruence | now apply IH].
Qed.

(** ** Deleting *)

Section DeleteProperties.

Context `{RT : Runtime}.

#[local] Arguments command_line : simpl never.
#[local] Arguments mountPath_of : simpl never.
#[local] Arguments configMap_of : simpl never.
#[local] Arguments JsObject.set : simpl never.
#[local] Arguments JsObject.assign : simpl never.
#[local] Arguments JsObject.delete : simpl never.
#[local] Arguments String.append : simpl never.
#[local] Arguments volumeMounts_of : simpl never.

Ltac unfold_handler :=
  unfold deploy, delete_model_handler, respond, deploy_steps, delete_steps,
    checkIfModelMountExists, executeCommand, write_configMap, assign_model,
    delete_model, models, try_catch, bind, ret, throw,
    response_of, world_after, trace_of;
  cbn.

Ltac split_outside :=
  match goal with
  | |- context [writeFileSync_error ?o] =>
      destruct (writeFileSync_error o) eqn:?
  | |- context [exec ?c ?f ?o] =>
      let E := fresh "E" in destruct (exec c f o) as [[?|?] ?] eqn:E
  | |- context [includes ?p ?s] =>
      let I := fresh "I" in destruct (includes p s) eqn:I
  | |- context [volumeMounts_of ?s] =>
      let V := fresh "V" in destruct (volumeMounts_of s) eqn:V
  | |- context [findIndex ?p ?l] =>
      let F := fresh "F" in destruct (findIndex p l) eqn:F
  end; cbn.

Ltac symbolic := unfold_handler; repeat split_outside.

(** Picks the event an [In] hypothesis over a concrete trace stands for. *)
Ltac pick_event H :=
  cbn in H;
  repeat (destruct H as [H|H]; [try discriminate H|]);
  try contradiction.



(** A deletion patches a mount out only after the query reported the
    model's path and the deployment's description listed it: the index it
    removes is the first position of the model's own path in the list of
    mounts it read. *)
Theorem delete_removes_the_listed_mount
    (modelName : string) (w : World) (i : nat) (r : Outcome) :
  In (Exec (PatchRemoveMount i) r)
    (trace_of (delete_model_handler modelName w)) ->
  exists yaml json mounts,
    In (Exec GetDeploymentYaml (inr yaml))
      (trace_of (delete_model_handler modelName w)) /\
    includes (mountPath_of modelName) yaml = true /\
    In (Exec GetDeploymentJson (inr json))
      (trace_of (delete_model_handler modelName w)) /\
    volumeMounts_of json = inr mounts /\
    nth_error mounts i = Some (mountPath_of modelName) /\
    (forall j, j < i -> nth_error mounts j <> Some (mountPath_of modelName)).
Proof.
  symbolic; intros J; pick_event J.
  all: injection J as <- <-.
  all: match goal with
       | F : findIndex _ _ = Some _ |- _ =>
           destruct (findIndex_spec _ _ _ F) as [A B]
       end.
  all: do 3 eexists; repeat split;
    [ | eassumption | | eassumption | exact A | exact B]; cbn; tauto.
Qed.

(** When the description of the deployment does not list the model's path
    (the query matched it elsewhere in the text), a deletion patches
    nothing and goes on to the restart; when the description cannot be
    read, the deletion fails with what reading it threw, and the restart
    never runs. *)
Theorem delete_without_listed_mount
    (modelName json : string) (w : World) :
  In (Exec GetDeploymentJson (inr json))
    (trace_of (delete_model_handler modelName w)) ->
  (forall mounts,
     volumeMounts_of json = inr mounts ->
     ~ In (mountPath_of modelName) mounts ->
     (forall i r,
        ~ In (Exec (PatchRemoveMount i) r)
            (trace_of (delete_model_handler modelName w))) /\
     exists r,
       last_event (trace_of (delete_model_handler modelName w))
         = Some (Exec RolloutRestart r)) /\
  (forall message,
     volumeMounts_of json = inl message ->
     response_of (delete_model_handler modelName w) = ServerError message /\
     last_event (trace_of (delete_model_handler modelName w))
       = Some (Exec GetDeploymentJson (inr json))).
Proof.
  symbolic; intros J; pick_event J.
  all: injection J as J; subst.
  all: match goal with
       | V1 : volumeMounts_of ?s = _, V2 : volumeMounts_of ?s = _ |- _ =>
           rewrite V1 in V2; try discriminate V2; injection V2 as V2; subst
       end.
  all: split; [intros mounts V' N | intros message V'];
    try discriminate V'; injection V' as V'; subst.
  all: try (exfalso;
            match goal with
            | F : findIndex _ _ = Some _ |- _ =>
                apply findIndex_spec in F; destruct F as [A _];
                apply nth_error_In in A; contradiction
            end).
  all: try (split; [intros i r K; pick_event K | eexists; reflexivity]).
  all: split; reflexivity.
Qed.

(** When the query reports the model's path as not mounted, a deletion
    asks for no description and patches nothing: the restart is all that
    follows the query. *)
Theorem delete_of_unmounted_model_only_restarts
    (modelName yaml : string) (rest : list Event) (w : World) :
  after_query (trace_of (delete_model_handler modelName w))
    = Some (inr yaml, rest) ->
  includes (mountPath_of modelName) yaml = false ->
  exists r, rest = [Exec RolloutRestart r].
Proof.
  symbolic; intros Q; try discriminate Q; injection Q as <- <-;
    intros I'; try congruence; eexists; reflexivity.
Qed.

End DeleteProperties.

(** ** How the handlers compose *)

Section Composition.

Context `{RT : Runtime}.

#[local] Arguments JsObject.inherited : simpl never.
#[local] Arguments command_line : simpl never.
#[local] Arguments mountPath_of : simpl never.
#[local] Arguments configMap_of : simpl never.
#[local] Arguments JsObject.set : simpl never.
#[local] Arguments JsObject.assign : simpl never.
#[local] Arguments JsObject.delete : simpl never.
#[local] Arguments String.append : simpl never.
#[local] Arguments volumeMounts_of : simpl never.

Ltac unfold_handler :=
  unfold deploy, delete_model_handler, respond, deploy_steps, delete_steps,
    checkIfModelMountExists, executeCommand, write_configMap, assign_model,
    delete_model, models, try_catch, bind, ret, throw,
    response_of, world_after, trace_of;
  cbn.

Ltac split_outside :=
  match goal with
  | |- context [writeFileSync_error ?o] =>
      destruct (writeFileSync_error o) eqn:?
  | |- context [exec ?c ?f ?o] =>
      let E := fresh "E" in destruct (exec c f o) as [[?|?] ?] eqn:E
  | |- context [includes ?p ?s] =>
      let I := fresh "I" in destruct (includes p s) eqn:I
  | |- context [volumeMounts_of ?s] =>
      let V := fresh "V" in destruct (volumeMounts_of s) eqn:V
  | |- context [findIndex ?p ?l] =>
      let F := fresh "F" in destruct (findIndex p l) eqn:F
  end; cbn.

Ltac symbolic := unfold_handler; repeat split_outside.

(** The map a deployment or a deletion leaves does not depend on how the
    call went. *)
Lemma models_after_mutation (modelName code : string) (w : World) :
  currentModels (world_after (deploy modelName code w))
    = assign modelName code (currentModels w) /\
  currentModels (world_after (delete_model_handler modelName w))
    = delete modelName (currentModels w).
Proof.
  split; symbolic; reflexivity.
Qed.

(** Whether a deployment succeeded or failed half way, the next
    [GET /api/models/:name] answers with the text just sent (a 404 when it
    is the empty string), except under [__proto__], for which nothing was
    stored and the answer is the 200 without a text. Whether a deletion
    succeeded or failed, the next one answers 404, except under the name of
    a member of [Object.prototype], which the deletion cannot remove. *)
Theorem get_after_mutation (modelName code : string) (w : World) :
  response_of (get_model modelName (world_after (deploy modelName code w)))
    = (if String.eqb modelName "__proto__"
          && negb (has modelName (currentModels w))
       then MemberOk modelName
       else if truthy code then ModelOk code
       else NotFound ("Model " ++ modelName ++ " not found")) /\
  response_of
    (get_model modelName (world_after (delete_model_handler modelName w)))
    = (if inherited modelName then MemberOk modelName
       else NotFound ("Model " ++ modelName ++ " not found")).
Proof.
  destruct (models_after_mutation modelName code w) as [D X].
  unfold get_model, response_of, lookup. cbn.
  rewrite D, X, get_delete_same. split.
  - unfold assign.
    destruct (String.eqb_spec modelName "__proto__") as [->|N]; cbn.
    + unfold has. destruct (get "__proto__" (currentModels w)) eqn:G; cbn.
      * now rewrite get_set_same.
      * now rewrite G.
    + now rewrite get_set_same.
  - now destruct (inherited modelName).
Qed.

(** A deployment or a deletion of one name leaves every other name as it
    was, in the map and in what [GET /api/models/:name] answers, whether
    the call succeeded or not. *)
Theorem mutation_leaves_other_models
    (modelName other code : string) (w : World) :
  other <> modelName ->
  get other (currentModels (world_after (deploy modelName code w)))
    = get other (currentModels w) /\
  get other (currentModels (world_after (delete_model_handler modelName w)))
    = get other (currentModels w) /\
  response_of (get_model other (world_after (deploy modelName code w)))
    = response_of (get_model other w) /\
  response_of
    (get_model other (world_after (delete_model_handler modelName w)))
    = response_of (get_model other w).
Proof.
  intros N. destruct (models_after_mutation modelName code w) as [D X].
  unfold get_model, response_of, lookup. cbn. rewrite D, X.
  rewrite get_assign_other, get_delete_other by exact N.
  repeat split.
Qed.

(** After a successful deployment or deletion the document and the map
    agree on every name: the document holds under [name.js] exactly the
    text the map holds under [name], and nothing for a name the map does
    not track. *)
Theorem document_agrees_with_memory (w : World) :
  (forall modelName code message steps,
     response_of (deploy modelName code w) = DeployOk message steps ->
     forall name,
       persisted_text name (file (world_after (deploy modelName code w)))
       = get name (currentModels (world_after (deploy modelName code w)))) /\
  (forall modelName message,
     response_of (delete_model_handler modelName w) = DeleteOk message ->
     forall name,
       persisted_text name
         (file (world_after (delete_model_handler modelName w)))
       = get name
           (currentModels (world_after (delete_model_handler modelName w)))).
Proof.
  split.
  - intros modelName code message steps R name.
    destruct (deploy_ok_world _ _ _ _ _ R) as [-> ->].
    unfold persisted_text, persisted_data, configMap_of. cbn.
    apply get_configMap_data_own.
  - intros modelName message R name.
    destruct (delete_ok_world _ _ _ R) as [-> ->].
    unfold persisted_text, persisted_data, configMap_of. cbn.
    apply get_configMap_data_own.
Qed.

(** Deploying a name the server already tracks overwrites it in place: the
    tracked names and their order stay as they were. Deploying a new name
    adds exactly one entry, unless the name is [__proto__], which adds
    none and leaves the map as it was. Deploying the same text again
    changes nothing in memory. *)
Theorem redeploy_overwrites_in_place (modelName code : string) (w : World) :
  (has modelName (currentModels w) = true ->
   keys (currentModels (world_after (deploy modelName code w)))
     = keys (currentModels w)) /\
  (has modelName (currentModels w) = false ->
   modelName <> "__proto__" ->
   List.length (currentModels (world_after (deploy modelName code w)))
     = S (List.length (currentModels w)) /\
   In modelName
     (keys (currentModels (world_after (deploy modelName code w))))) /\
  (has modelName (currentModels w) = false ->
   modelName = "__proto__" ->
   currentModels (world_after (deploy modelName code w)) = currentModels w) /\
  currentModels
    (world_after (deploy modelName code
                    (world_after (deploy modelName code w))))
    = currentModels (world_after (deploy modelName code w)).
Proof.
  destruct (models_after_mutation modelName code w) as [D _].
  destruct (models_after_mutation modelName code
              (world_after (deploy modelName code w))) as [D' _].
  rewrite D', D, assign_assign_same.
  destruct (set_keys modelName code (currentModels w)) as [A B].
  repeat split.
  - intros H. unfold assign. rewrite H, andb_false_r. now apply A.
  - rewrite assign_set by assumption. now apply B.
  - rewrite assign_set by assumption. now apply B.
  - intros H ->. apply assign_proto. unfold has in H.
    destruct (get "__proto__" (currentModels w)); [discriminate | reflexivity].
Qed.

End Composition.

(** ** Reloading, continued *)

Lemma keys_reload_keys (d : obj) (ks : list string) (m0 : obj) (x : string) :
  In x (keys (reload_keys d ks m0)) ->
  In x (keys m0) \/
  exists key, In key ks /\ x = replace ".js" EmptyString key.
Proof.
  revert m0. unfold reload_keys.
  induction ks as [|a ks IH]; intros m0 I; cbn in I; [now left|].
  apply IH in I. destruct I as [I|(key & K & E)].
  - destruct (get a d); [|now left].
    apply keys_assign_incl in I. destruct I as [->|I]; [right | now left].
    exists a. split; [now left | reflexivity].
  - right. exists key. split; [now right | exact E].
Qed.

Section ReloadComposition.

Context `{RT : Runtime}.

#[local] Arguments JsObject.set : simpl never.
#[local] Arguments JsObject.assign : simpl never.
#[local] Arguments JsString.replace : simpl never.

Lemma forEach_assign_events (d : obj) (ks : list string) (w : World) :
  Forall (fun e => ~ is_exec e)
    (snd (forEach ks (fun key =>
            match get key d with
            | Some text => assign_model (replace ".js" EmptyString key) text
            | None => ret tt
            end) w)).
Proof.
  revert w. induction ks as [|a ks IH]; intros w; cbn.
  - constructor.
  - unfold bind. destruct (get a d) as [text|]; cbn.
    + specialize (IH {| currentModels :=
                          assign (replace ".js" EmptyString a) text
                            (currentModels w);
                        file := file w; outside := outside w |}).
      destruct (forEach ks _ _) as [[r w2] t2]. cbn in *.
      constructor; [tauto | exact IH].
    + specialize (IH w). destruct (forEach ks _ _) as [[r w2] t2]. exact IH.
Qed.

Lemma loadExistingModels_events (w : World) :
  Forall (fun e => ~ is_exec e) (snd (loadExistingModels w)).
Proof.
  unfold loadExistingModels, try_catch, bind, read_configMap, models, ret.
  destruct (file w) as [message|[cm|]]; cbn; try (repeat constructor).
  destruct (data cm) as [d|]; cbn; try (repeat constructor).
  pose proof (forEach_assign_events d (keys d) w) as T.
  destruct (forEach (keys d) _ w) as [[[e|[]] w1] t1]; cbn in *;
    rewrite ?app_nil_r; exact T.
Qed.

(** [GET /api/models] never fails and never reaches outside the process:
    it answers success with a map, runs no command, and leaves the document
    and the outside as they were. When the document cannot be read, is
    empty or has no [data], the answer is the map as it stood. *)
Theorem list_models_never_fails (w : World) :
  (exists current, response_of (list_models w) = ModelsOk current) /\
  file (world_after (list_models w)) = file w /\
  outside (world_after (list_models w)) = outside w /\
  Forall (fun e => ~ is_exec e) (trace_of (list_models w)) /\
  (persisted_data (file w) = None ->
   response_of (list_models w) = ModelsOk (currentModels w)).
Proof.
  destruct (list_models_spec w) as (R & M & F).
  split; [eexists; exact R | split; [exact F | split; [|split]]].
  - destruct (loadExistingModels_spec w) as (result & t & E).
    unfold list_models, respond, bind, models, world_after.
    rewrite E. reflexivity.
  - pose proof (loadExistingModels_events w) as T.
    unfold list_models, respond, bind, models, trace_of.
    destruct (loadExistingModels w) as [[[e|a] w1] t1]; cbn in *;
      rewrite ?app_nil_r; exact T.
  - intros P. rewrite R, M, P. reflexivity.
Qed.

(** A server restarted on the document a successful deployment or deletion
    left tracks the same models with the same texts, provided no tracked
    name contains [.js]. ([__proto__] is the one name a started server
    never owns, and no server that was started owns it.) *)
Theorem restart_recovers_plain_models (w : World) (o : Outside) :
  (forall modelName code message steps,
     response_of (deploy modelName code w) = DeployOk message steps ->
     (forall name,
        In name (keys (currentModels
                         (world_after (deploy modelName code w)))) ->
        includes ".js" name = false) ->
     forall name,
       get name
         (currentModels
            (startup (file (world_after (deploy modelName code w))) o))
       = if String.eqb name "__proto__" then None
         else get name
                (currentModels (world_after (deploy modelName code w)))) /\
  (forall modelName message,
     response_of (delete_model_handler modelName w) = DeleteOk message ->
     (forall name,
        In name (keys (currentModels
                         (world_after (delete_model_handler modelName w)))) ->
        includes ".js" name = false) ->
     forall name,
       get name
         (currentModels
            (startup
               (file (world_after (delete_model_handler modelName w))) o))
       = if String.eqb name "__proto__" then None
         else get name
                (currentModels
                   (world_after (delete_model_handler modelName w)))).
Proof.
  assert (K : forall current,
             (forall name, In name (keys current) ->
                           includes ".js" name = false) ->
             forall name,
               get name (reload_keys (configMap_data current)
                           (keys (configMap_data current)) [])
               = if String.eqb name "__proto__" then None
                 else get name current).
  { intros current P name.
    destruct (String.eqb_spec name "__proto__") as [->|Q].
    { now apply get_proto_reload_keys. }
    destruct (get name current) as [text|] eqn:G.
    - apply get_reload_keys_plain.
      + apply P. now apply get_Some_In with text.
      + exact Q.
      + intros key I. apply keys_configMap_data in I.
        destruct I as (n & E & _). now exists n.
      + now apply get_configMap_data.
      + left. apply get_Some_In with text. now apply get_configMap_data.
    - apply get_None_iff. intros I. apply keys_reload_keys in I.
      destruct I as [[]|(key & I & E)].
      apply keys_configMap_data in I. destruct I as (n & -> & I).
      rewrite replace_js_key in E by now apply P.
      subst n. apply get_None_iff in G. contradiction. }
  split.
  - intros modelName code message steps R P name.
    destruct (deploy_ok_world _ _ _ _ _ R) as [M F].
    rewrite startup_spec, F, M in *. cbn. now apply K.
  - intros modelName message R P name.
    destruct (delete_ok_world _ _ _ R) as [M F].
    rewrite startup_spec, F, M in *. cbn. now apply K.
Qed.

End ReloadComposition.

(** ** The logs endpoint *)

Lemma split_on_not_nil (sep : ascii) (s : string) : split_on sep s <> [].
Proof.
  destruct s as [|c s]; cbn; [discriminate|].
  destruct (Ascii.eqb c sep); [discriminate|].
  destruct (split_on sep s); discriminate.
Qed.

(** Joining the pieces with the separator gives the string back. *)
Lemma concat_split_on (sep : ascii) (s : string) :
  String.concat (String sep EmptyString) (split_on sep s) = s.
Proof.
  induction s as [|c s IH]; [reflexivity|].
  cbn [split_on]. destruct (Ascii.eqb_spec c sep) as [->|N].
  - pose proof (split_on_not_nil sep s) as Z.
    destruct (split_on sep s) as [|l ls]; [contradiction|].
    cbn [String.concat]. cbn. now rewrite <- IH.
  - pose proof (split_on_not_nil sep s) as Z.
    destruct (split_on sep s) as [|l ls]; [contradiction|].
    rewrite <- IH. destruct ls; reflexivity.
Qed.

Lemma length_split_on (sep : ascii) (s : string) :
  List.length (split_on sep s) = S (occurrences sep s).
Proof.
  induction s as [|c s IH]; [reflexivity|].
  cbn. destruct (Ascii.eqb c sep); cbn.
  - now rewrite IH.
  - pose proof (split_on_not_nil sep s) as Z.
    destruct (split_on sep s); [contradiction | exact IH].
Qed.

Lemma split_on_pieces (sep : ascii) (s : string) :
  Forall (fun piece => occurrences sep piece = 0) (split_on sep s).
Proof.
  induction s as [|c s IH]; cbn; [repeat constructor|].
  destruct (Ascii.eqb c sep) eqn:E.
  - constructor; [reflexivity | exact IH].
  - destruct (split_on sep s) as [|l ls]; [repeat constructor; cbn; now rewrite E|].
    inversion IH as [|? ? A B]; subst. constructor; [|exact B].
    cbn. now rewrite E.
Qed.

Section LogsProperties.

Context `{RT : Runtime}.

(** When the logs command succeeds, [GET /api/cluster/logs] answers with
    the lines of its output: joined by line feeds they give the output
    back, none contains a line feed, and there is one more of them than
    line feeds in the output, so an empty output gives one empty line and
    an output that ends in a line feed gives an empty last line. The map
    and the document are left as they were. *)
Theorem cluster_logs_are_the_lines (w : World) (output : string)
    (o : Outside) :
  exec logs_command (file w) (outside w) = (inr output, o) ->
  exists lines,
    fst (cluster_logs w) = LogsOk lines /\
    String.concat (String line_feed EmptyString) lines = output /\
    List.length lines = S (occurrences line_feed output) /\
    Forall (fun line => occurrences line_feed line = 0) lines /\
    (output = EmptyString -> lines = [EmptyString]) /\
    currentModels (snd (cluster_logs w)) = currentModels w /\
    file (snd (cluster_logs w)) = file w.
Proof.
  intros E. unfold cluster_logs, run_line. rewrite E. cbn.
  exists (split_on line_feed output). repeat split.
  - apply concat_split_on.
  - apply length_split_on.
  - apply split_on_pieces.
  - now intros ->.
Qed.

End LogsProperties.

(** ** The editor page *)

Lemma includes_app_l (p a b : string) :
  includes p b = true -> includes p (a ++ b) = true.
Proof.
  intros I. induction a as [|c a IH]; [exact I|].
  change (String c a ++ b)%string with (String c (a ++ b)).
  change (includes p (String c (a ++ b)))
    with (startsWith p (String c (a ++ b)) || includes p (a ++ b)).
  rewrite IH. apply orb_true_r.
Qed.

Section EditorProperties.

Context `{RT : Runtime}.

#[local] Arguments Nat.ltb : simpl never.
#[local] Arguments JsObject.assign : simpl never.

Variable toLocaleTimeString : nat -> string.
Variable modelDefinitions : obj.
Variable setValue_member : string -> option string.
Variable Server : Type.
Variable fetch_models : Server -> (string + option obj) * Server.
Variable fetch_deploy :
  string -> string -> Server -> (string + bool * string) * Server.
Variable fetch_delete : string -> Server -> (string + bool * string) * Server.

Local Abbreviation addLog := (Editor.addLog toLocaleTimeString).
Local Abbreviation switchTab := (Editor.switchTab toLocaleTimeString).
Local Abbreviation loadModel :=
  (Editor.loadModel toLocaleTimeString modelDefinitions setValue_member).
Local Abbreviation loadModel_throws :=
  (Editor.loadModel_throws modelDefinitions setValue_member).
Local Abbreviation validate_page := (Editor.validateModel toLocaleTimeString).
Local Abbreviation loadModelsFromServer :=
  (Editor.loadModelsFromServer toLocaleTimeString Server fetch_models).
Local Abbreviation deployToCluster :=
  (Editor.deployToCluster toLocaleTimeString Server fetch_models fetch_deploy).
Local Abbreviation deleteModel :=
  (Editor.deleteModel toLocaleTimeString Server fetch_models fetch_delete).
Local Abbreviation createNewModel :=
  (Editor.createNewModel toLocaleTimeString modelDefinitions setValue_member).
Local Abbreviation page_loaded :=
  (Editor.DOMContentLoaded toLocaleTimeString modelDefinitions setValue_member
     Server fetch_models).

(** *** The templates *)

Lemma cube_template_markers (name tableName : string) :
  includes "cube(" (Editor.cube_template name tableName) = true /\
  includes "sql:" (Editor.cube_template name tableName) = true.
Proof.
  split; [reflexivity|].
  unfold Editor.cube_template. cbn [String.concat].
  do 2 apply includes_app_l. reflexivity.
Qed.

Lemma view_template_markers (name : string) :
  includes "view(" (Editor.view_template name) = true /\
  includes "cubes:" (Editor.view_template name) = true.
Proof.
  split; [reflexivity|].
  unfold Editor.view_template. cbn [String.concat].
  do 4 apply includes_app_l. reflexivity.
Qed.

(** *** The log *)

Lemma addLog_off_output (type message : string) (store : bool)
    (p : Editor.Page) :
  String.eqb (Editor.currentTab p) "output" = false ->
  addLog type message store p = p.
Proof.
  intros T. unfold Editor.addLog. now rewrite T.
Qed.

(** Logging changes nothing but the stored log and the clock. *)
Lemma addLog_frame (type message : string) (store : bool) (p : Editor.Page) :
  Editor.currentModel (addLog type message store p) = Editor.currentModel p /\
  Editor.models (addLog type message store p) = Editor.models p /\
  Editor.editor (addLog type message store p) = Editor.editor p /\
  Editor.currentTab (addLog type message store p) = Editor.currentTab p.
Proof.
  unfold Editor.addLog.
  destruct (String.eqb (Editor.currentTab p) "output"), store; cbn;
    repeat split.
Qed.

Lemma addLog_no_store (type message : string) (p : Editor.Page) :
  Editor.logs (addLog type message false p) = Editor.logs p.
Proof.
  unfold Editor.addLog.
  destruct (String.eqb (Editor.currentTab p) "output"); reflexivity.
Qed.

Lemma addLog_bounded (type message : string) (store : bool)
    (p : Editor.Page) :
  List.length (Editor.logs p) <= 100 ->
  List.length (Editor.logs (addLog type message store p)) <= 100.
Proof.
  intros B. unfold Editor.addLog.
  destruct (String.eqb (Editor.currentTab p) "output"); cbn; [|exact B].
  destruct store; cbn; [|exact B].
  destruct (Nat.ltb_spec 100
              (List.length
                 (Editor.logs p
                  ++ [{| Editor.log_type := type;
                         Editor.log_message := message;
                         Editor.log_timestamp :=
                           toLocaleTimeString (Editor.clock p) |}])))
    as [L|L]; [|exact L].
  rewrite length_tl, length_app. cbn. lia.
Qed.

Lemma restore_logs (l : list Editor.LogRecord) (p : Editor.Page) :
  Editor.logs
    (fold_left
       (fun q log =>
          addLog (Editor.log_type log) (Editor.log_message log) false q)
       l p) = Editor.logs p /\
  Editor.currentTab
    (fold_left
       (fun q log =>
          addLog (Editor.log_type log) (Editor.log_message log) false q)
       l p) = Editor.currentTab p.
Proof.
  revert p. induction l as [|a l IH]; intros p; cbn; [split; reflexivity|].
  destruct (IH (addLog (Editor.log_type a) (Editor.log_message a) false p))
    as [A B].
  rewrite A, B, addLog_no_store.
  split; [reflexivity | apply addLog_frame].
Qed.

(** Switching tabs sets the tab and leaves the stored log as it is. *)
Lemma switchTab_spec (tab : string) (p : Editor.Page) :
  Editor.currentTab (switchTab tab p) = tab /\
  Editor.logs (switchTab tab p) = Editor.logs p.
Proof.
  unfold Editor.switchTab.
  destruct (String.eqb tab "deployment"); [split; reflexivity|].
  destruct (String.eqb tab "validation"); [split; reflexivity|].
  cbn [Editor.logs].
  match goal with
  | |- context [fold_left ?f ?l ?q] => destruct (restore_logs l q) as [A B]
  end.
  rewrite A, B. split; reflexivity.
Qed.

Lemma loadModelsFromServer_bounded (p : Editor.Page) (s : Server) :
  List.length (Editor.logs p) <= 100 ->
  List.length (Editor.logs (snd (fst (loadModelsFromServer p s)))) <= 100.
Proof.
  intros B. unfold Editor.loadModelsFromServer.
  destruct (fetch_models s) as [[message|[ms|]] s1]; cbn; try exact B.
  now apply addLog_bounded.
Qed.

Lemma validate_page_bounded (p : Editor.Page) :
  List.length (Editor.logs p) <= 100 ->
  List.length (Editor.logs (snd (validate_page p))) <= 100.
Proof.
  intros B. unfold Editor.validateModel.
  destruct (Editor.check _) as [[|] message]; cbn;
    now do 2 apply addLog_bounded.
Qed.

Lemma loadModel_bounded (modelName : string) (p : Editor.Page) :
  List.length (Editor.logs p) <= 100 ->
  List.length (Editor.logs (loadModel modelName p)) <= 100.
Proof.
  intros B. unfold Editor.loadModel. cbn zeta.
  destruct (Editor.setValue _ _); [now apply addLog_bounded | exact B].
Qed.

(** The stored log never grows beyond 100 entries: when it holds at most
    100, it still does after every function of the page. On the output tab
    a stored entry goes to the end of the log, and the oldest entry makes
    room for it once the log is full; away from the output tab nothing is
    logged at all. *)
Theorem stored_log_stays_within_100 (p : Editor.Page) :
  List.length (Editor.logs p) <= 100 ->
  (forall type message store,
     List.length (Editor.logs (addLog type message store p)) <= 100) /\
  (forall tab, List.length (Editor.logs (switchTab tab p)) <= 100) /\
  (forall modelName,
     List.length (Editor.logs (loadModel modelName p)) <= 100) /\
  List.length (Editor.logs (snd (validate_page p))) <= 100 /\
  (forall name type tableName,
     List.length (Editor.logs (createNewModel name type tableName p)) <= 100) /\
  (forall s,
     List.length (Editor.logs (fst (deployToCluster p s))) <= 100) /\
  (forall confirmed s,
     List.length (Editor.logs (fst (deleteModel confirmed p s))) <= 100) /\
  (forall type message,
     String.eqb (Editor.currentTab p) "output" = true ->
     exists timestamp,
       Editor.logs (addLog type message true p)
       = (if Nat.ltb (List.length (Editor.logs p)) 100
          then Editor.logs p else List.tl (Editor.logs p))
         ++ [{| Editor.log_type := type; Editor.log_message := message;
                Editor.log_timestamp := timestamp |}]) /\
  (forall type message store,
     String.eqb (Editor.currentTab p) "output" = false ->
     addLog type message store p = p).
Proof.
  intros B. repeat split.
  - intros. now apply addLog_bounded.
  - intros tab. destruct (switchTab_spec tab p) as [_ ->]. exact B.
  - intros modelName. now apply loadModel_bounded.
  - now apply validate_page_bounded.
  - intros name type tableName. unfold Editor.createNewModel.
    destruct (negb (truthy name)); [exact B|].
    destruct (String.eqb type "cube" && negb (truthy tableName));
      [exact B|].
    cbn zeta. destruct (Editor.loadModel_throws _ _ _ _);
      [|apply addLog_bounded]; now apply loadModel_bounded.
  - intros s. unfold Editor.deployToCluster.
    pose proof (validate_page_bounded p B) as V.
    destruct (validate_page p) as [[|] p1]; cbn in *;
      [|now apply addLog_bounded].
    assert (B2 : List.length (Editor.logs (switchTab "deployment" p1)) <= 100)
      by (destruct (switchTab_spec "deployment" p1) as [_ ->]; exact V).
    destruct (fetch_deploy _ _ s) as [[message|[[|] message]] s1];
      try (now repeat apply addLog_bounded).
    match goal with
    | |- context [loadModelsFromServer ?q ?t] =>
        pose proof (loadModelsFromServer_bounded q t) as L;
        destruct (loadModelsFromServer q t) as [[[message'|[]] p8] s2]
    end; cbn in *.
    + apply addLog_bounded, L. now repeat apply addLog_bounded.
    + apply L. now repeat apply addLog_bounded.
  - intros confirmed s. unfold Editor.deleteModel.
    destruct confirmed; cbn; [|exact B].
    destruct (fetch_delete _ s) as [[message|[[|] message]] s1];
      try (now repeat apply addLog_bounded).
    match goal with
    | |- context [loadModelsFromServer ?q ?t] =>
        pose proof (loadModelsFromServer_bounded q t) as L;
        destruct (loadModelsFromServer q t) as [[[message'|[]] p4] s2]
    end; cbn in *.
    + apply addLog_bounded, L. now repeat apply addLog_bounded.
    + apply L. now repeat apply addLog_bounded.
  - intros type message T. unfold Editor.addLog. rewrite T. cbn.
    exists (toLocaleTimeString (Editor.clock p)).
    rewrite length_app. cbn.
    destruct (Nat.ltb_spec 100 (List.length (Editor.logs p) + 1)) as [L|L];
      destruct (Nat.ltb_spec (List.length (Editor.logs p)) 100) as [L'|L'];
      try lia; [|reflexivity].
    destruct (Editor.logs p); [cbn in *; lia | reflexivity].
  - intros type message store T. now apply addLog_off_output.
Qed.


(** *** Creating, validating and deploying *)

Lemma check_template (template : string) :
  (includes "cube(" template = true \/ includes "view(" template = true) ->
  (includes "sql:" template = true \/ includes "cubes:" template = true) ->
  (fst (Editor.check template) = true <-> new_Function template = None) /\
  ((exists message, validate template = Validation true message)
   <-> new_Function template = None).
Proof.
  intros A B.
  assert (C : negb (includes "cube(" template)
              && negb (includes "view(" template) = false)
    by (destruct A as [-> | ->]; [reflexivity | apply andb_false_r]).
  assert (D : negb (includes "sql:" template)
              && negb (includes "cubes:" template) = false)
    by (destruct B as [-> | ->]; [reflexivity | apply andb_false_r]).
  unfold Editor.check, validateModel, validate. rewrite C, D.
  destruct (new_Function template) as [message|]; cbn; split; split;
    try discriminate; try reflexivity.
  - intros [m E]. discriminate E.
  - intros _. eexists. reflexivity.
Qed.

Lemma validate_page_result (p : Editor.Page) :
  fst (validate_page p) = fst (Editor.check (Editor.editor p)) /\
  Editor.currentModel (snd (validate_page p)) = Editor.currentModel p /\
  Editor.models (snd (validate_page p)) = Editor.models p /\
  Editor.editor (snd (validate_page p)) = Editor.editor p /\
  Editor.currentTab (snd (validate_page p)) = Editor.currentTab p.
Proof.
  unfold Editor.validateModel.
  destruct (addLog_frame "info" "Validating model..." true p)
    as (A & B & C & D).
  rewrite C.
  destruct (Editor.check (Editor.editor p)) as [[|] message]; cbn;
    (split; [reflexivity|]);
    match goal with
    | |- context [Editor.addLog _ ?t ?m true ?q] =>
        destruct (addLog_frame t m true q) as (A' & B' & C' & D')
    end;
    rewrite A', B', C', D'; auto.
Qed.

(** The content of a model the page holds with a non-empty text is that
    text, whatever the name. *)
Lemma content_of_own (modelName text : string) (p : Editor.Page) :
  get modelName (Editor.models p) = Some text ->
  truthy text = true ->
  Editor.content_of modelDefinitions modelName p = Text text.
Proof.
  intros G T. unfold Editor.content_of, Editor.or_value, lookup.
  rewrite G. cbn. now rewrite T.
Qed.

(** Under a name that [Object.prototype] does not have, the content is the
    text the page holds, else the built-in one, else the empty text. *)
Lemma content_of_not_inherited (modelName : string) (p : Editor.Page) :
  inherited modelName = false ->
  Editor.content_of modelDefinitions modelName p
  = Text (Editor.or_else (get modelName (Editor.models p))
            (Editor.or_else (get modelName modelDefinitions) EmptyString)).
Proof.
  intros I. unfold Editor.content_of, Editor.or_value, Editor.or_else, lookup.
  rewrite I.
  destruct (get modelName (Editor.models p)) as [t|]; cbn;
    [destruct (truthy t) eqn:T; [reflexivity|]|];
    (destruct (get modelName modelDefinitions) as [d|]; cbn;
     [destruct (truthy d)|]; reflexivity).
Qed.

(** Whether it throws or not, [loadModel] sets [currentModel] and leaves
    the models and the tab as they were. *)
Lemma loadModel_frame (modelName : string) (p : Editor.Page) :
  Editor.currentModel (loadModel modelName p) = modelName /\
  Editor.models (loadModel modelName p) = Editor.models p /\
  Editor.currentTab (loadModel modelName p) = Editor.currentTab p.
Proof.
  unfold Editor.loadModel. cbn zeta.
  destruct (Editor.setValue _ _) as [content|]; [|repeat split].
  match goal with
  | |- context [Editor.addLog _ ?t ?m true ?q] =>
      destruct (addLog_frame t m true q) as (A & B & _ & D)
  end.
  rewrite A, B, D. repeat split.
Qed.

(** When the content is a text, [loadModel] puts it into the editor and
    does not throw. *)
Lemma loadModel_text (modelName content : string) (p : Editor.Page) :
  Editor.content_of modelDefinitions modelName p = Text content ->
  Editor.editor (loadModel modelName p) = content /\
  loadModel_throws modelName p = false.
Proof.
  intros C. unfold Editor.loadModel, Editor.loadModel_throws.
  rewrite C. cbn.
  match goal with
  | |- context [Editor.addLog _ ?t ?m true ?q] =>
      destruct (addLog_frame t m true q) as (_ & _ & D & _)
  end.
  rewrite D. split; reflexivity.
Qed.

Lemma loadModel_spec (modelName : string) (p : Editor.Page) :
  inherited modelName = false ->
  Editor.currentModel (loadModel modelName p) = modelName /\
  Editor.models (loadModel modelName p) = Editor.models p /\
  Editor.editor (loadModel modelName p)
    = Editor.or_else (get modelName (Editor.models p))
        (Editor.or_else (get modelName modelDefinitions) EmptyString) /\
  Editor.currentTab (loadModel modelName p) = Editor.currentTab p.
Proof.
  intros I. destruct (loadModel_frame modelName p) as (A & B & D).
  destruct (loadModel_text modelName _ p (content_of_not_inherited _ p I))
    as [E _].
  auto.
Qed.

Lemma template_passes (name type tableName : string) :
  let template :=
    if String.eqb type "cube" then Editor.cube_template name tableName
    else Editor.view_template name in
  truthy template = true /\
  (fst (Editor.check template) = true <-> new_Function template = None) /\
  ((exists message, validate template = Validation true message)
   <-> new_Function template = None).
Proof.
  cbn zeta. destruct (String.eqb type "cube").
  - destruct (cube_template_markers name tableName) as [A B].
    split; [reflexivity | apply check_template; auto].
  - destruct (view_template_markers name) as [A B].
    split; [reflexivity | apply check_template; auto].
Qed.

(** What [createNewModel] does once the name and the table passed its two
    checks. *)
Lemma createNewModel_runs (name type tableName : string) (p : Editor.Page) :
  truthy name = true ->
  (type = "cube" -> truthy tableName = true) ->
  let template :=
    if String.eqb type "cube" then Editor.cube_template name tableName
    else Editor.view_template name in
  let p1 :=
    Editor.with_models (assign name template (Editor.models p)) p in
  createNewModel name type tableName p
  = if loadModel_throws name p1 then loadModel name p1
    else addLog "success" ("Created new " ++ type ++ ": " ++ name) true
           (loadModel name p1).
Proof.
  intros N T. cbn zeta. unfold Editor.createNewModel. rewrite N. cbn [negb].
  destruct (String.eqb_spec type "cube") as [->|_]; [|reflexivity].
  now rewrite T.
Qed.

(** A model created from the dialog under a name other than [__proto__]
    is stored under its name and loaded into the editor, and it always
    passes the marker and structure checks of both validators, whatever the
    name and the table: validation of the fresh model succeeds exactly when
    its text parses. Under [__proto__] no model is stored: the page's
    models are as they were, and [currentModel] is [__proto__]. With no
    name, or no table for a cube, nothing is created. *)
Theorem new_model_passes_the_checks
    (name type tableName : string) (p : Editor.Page) :
  (truthy name = true ->
   (type = "cube" -> truthy tableName = true) ->
   name <> "__proto__" ->
   exists template,
     template = (if String.eqb type "cube"
                 then Editor.cube_template name tableName
                 else Editor.view_template name) /\
     Editor.editor (createNewModel name type tableName p) = template /\
     Editor.currentModel (createNewModel name type tableName p) = name /\
     get name (Editor.models (createNewModel name type tableName p))
       = Some template /\
     (fst (validate_page (createNewModel name type tableName p)) = true
      <-> new_Function template = None) /\
     ((exists message, validate template = Validation true message)
      <-> new_Function template = None)) /\
  ((type = "cube" -> truthy tableName = true) ->
   get "__proto__" (Editor.models p) = None ->
   Editor.models (createNewModel "__proto__" type tableName p)
     = Editor.models p /\
   Editor.currentModel (createNewModel "__proto__" type tableName p)
     = "__proto__") /\
  (truthy name = false \/ (type = "cube" /\ truthy tableName = false) ->
   createNewModel name type tableName p = p).
Proof.
  split; [|split].
  - intros N T Q.
    destruct (template_passes name type tableName) as (C & K1 & K2).
    rewrite (createNewModel_runs name type tableName p N T). cbn zeta.
    remember (if String.eqb type "cube"
              then Editor.cube_template name tableName
              else Editor.view_template name) as template eqn:ET.
    exists template. split; [reflexivity|].
    remember (Editor.with_models (assign name template (Editor.models p)) p)
      as p1 eqn:E1.
    assert (G : get name (Editor.models p1) = Some template)
      by (subst p1; cbn; now apply get_assign_same).
    destruct (loadModel_frame name p1) as (L1 & L2 & _).
    destruct (loadModel_text name template p1 (content_of_own _ _ _ G C))
      as [L3 L4].
    rewrite L4.
    remember (loadModel name p1) as p2 eqn:E2.
    destruct (addLog_frame "success"
                ("Created new " ++ type ++ ": " ++ name) true p2)
      as (A1 & A2 & A3 & _).
    remember (addLog "success" ("Created new " ++ type ++ ": " ++ name)
                true p2) as p3 eqn:E3.
    destruct (validate_page_result p3) as (V & _).
    rewrite V, A1, A2, A3, L1, L2, L3, G.
    split; [reflexivity | split; [reflexivity | split; [reflexivity|]]].
    split; [exact K1 | exact K2].
  - intros T G.
    rewrite (createNewModel_runs "__proto__" type tableName p eq_refl T).
    cbn zeta. rewrite (assign_proto _ _ G).
    match goal with
    | |- context [Editor.loadModel _ _ _ "__proto__" ?q] =>
        destruct (loadModel_frame "__proto__" q) as (L1 & L2 & _);
        remember (loadModel "__proto__" q) as p2 eqn:E2
    end.
    destruct (Editor.loadModel_throws _ _ _ _).
    + rewrite L1, L2. split; reflexivity.
    + match goal with
      | |- context [Editor.addLog _ ?t ?m true p2] =>
          destruct (addLog_frame t m true p2) as (-> & -> & _ & _)
      end.
      rewrite L1, L2. split; reflexivity.
  - unfold Editor.createNewModel. intros [N|[-> N]].
    + now rewrite N.
    + rewrite N. cbn. now destruct (truthy name).
Qed.

(** A text that fails the editor's validation is never sent: the server is
    not contacted and the page keeps its models, its text and its tab. *)
Theorem invalid_model_is_not_sent (p : Editor.Page) (s : Server) :
  fst (validate_page p) = false ->
  snd (deployToCluster p s) = s /\
  Editor.models (fst (deployToCluster p s)) = Editor.models p /\
  Editor.editor (fst (deployToCluster p s)) = Editor.editor p /\
  Editor.currentModel (fst (deployToCluster p s)) = Editor.currentModel p /\
  Editor.currentTab (fst (deployToCluster p s)) = Editor.currentTab p.
Proof.
  intros V. destruct (validate_page_result p) as (R & A & B & C & D).
  unfold Editor.deployToCluster.
  destruct (validate_page p) as [valid p1]. cbn in *.
  rewrite V. cbn.
  destruct (addLog_frame "error" "Cannot deploy invalid model" true p1)
    as (A' & B' & C' & D').
  rewrite A', B', C', D'. auto.
Qed.

(** The messages of a deployment never reach the log: [deployToCluster]
    switches to the deployment tab before it logs anything about the
    deployment, and nothing is logged away from the output tab. After a
    validated deployment, however it went, the stored log is the one
    validation left and the page is on the deployment tab. *)
Theorem deployment_outcome_is_not_logged (p : Editor.Page) (s : Server) :
  fst (validate_page p) = true ->
  Editor.logs (fst (deployToCluster p s))
    = Editor.logs (snd (validate_page p)) /\
  Editor.currentTab (fst (deployToCluster p s)) = "deployment".
Proof.
  intros V. unfold Editor.deployToCluster.
  destruct (validate_page p) as [valid p1]. cbn in V. subst valid. cbn.
  destruct (fetch_deploy _ _ s) as [[message|[[|] message]] s1];
    cbn; auto.
  unfold Editor.loadModelsFromServer.
  destruct (fetch_models s1) as [[message'|[ms|]] s2]; cbn; auto.
Qed.


Lemma get_fold_definitions (defs : obj) (ks : list string) (m : obj)
    (k : string) :
  k <> "__proto__" \/ has k m = true ->
  get k
    (fold_left
       (fun m' key =>
          match get key defs with
          | Some text => assign key text m'
          | None => m'
          end) ks m)
  = if in_dec string_dec k ks
    then match get k defs with
         | Some text => Some text
         | None => get k m
         end
    else get k m.
Proof.
  revert m. induction ks as [|a ks IH]; intros m O; [reflexivity|].
  cbn [fold_left]. rewrite IH.
  2:{ destruct O as [N|H]; [now left | right].
      destruct (get a defs); [now apply has_assign_keeps | exact H]. }
  destruct (string_dec a k) as [->|N].
  - destruct (in_dec string_dec k (k :: ks)) as [_|F];
      [|exfalso; apply F; now left].
    destruct (get k defs) as [text|] eqn:G.
    + destruct (in_dec string_dec k ks);
        [reflexivity | now apply get_assign_owned].
    + destruct (in_dec string_dec k ks); reflexivity.
  - assert (E : get k (match get a defs with
                       | Some text => assign a text m
                       | None => m
                       end) = get k m).
    { destruct (get a defs); [|reflexivity].
      apply get_assign_other. congruence. }
    rewrite E.
    destruct (in_dec string_dec k ks) as [I|I];
      destruct (in_dec string_dec k (a :: ks)) as [J|J]; try reflexivity.
    + exfalso. apply J. now right.
    + destruct J as [J|J]; [congruence | contradiction].
Qed.

Lemma get_proto_fold_definitions (defs : obj) (ks : list string) (m : obj) :
  get "__proto__" m = None ->
  get "__proto__"
    (fold_left
       (fun m' key =>
          match get key defs with
          | Some text => assign key text m'
          | None => m'
          end) ks m) = None.
Proof.
  revert m. induction ks as [|a ks IH]; intros m G; [exact G|].
  cbn [fold_left]. apply IH.
  destruct (get a defs); [now apply get_proto_assign | exact G].
Qed.

(** When the models cannot be loaded at page load (the request fails or
    the reply has no success), the page falls back on the built-in
    definitions: every built-in model is available under its name with its
    built-in text, no other name is touched, the server is left as the
    request left it, and the editor opens on [Customers]. (The one name
    under which nothing can be stored is [__proto__], on a page that does
    not own it.) When they can be loaded, the list is the server's, and
    the editor still shows the built-in [Customers] if the server has
    none. *)
Theorem page_load_falls_back_on_builtin_models (p : Editor.Page) (s : Server) :
  (forall s1,
     (exists message, fetch_models s = (inl message, s1)) \/
     fetch_models s = (inr None, s1) ->
     snd (page_loaded p s) = s1 /\
     Editor.currentModel (fst (page_loaded p s)) = "Customers" /\
     (forall name,
        get name (Editor.models (fst (page_loaded p s)))
        = if String.eqb name "__proto__" && negb (has name (Editor.models p))
          then None
          else match get name modelDefinitions with
               | Some text => Some text
               | None => get name (Editor.models p)
               end) /\
     Editor.editor (fst (page_loaded p s))
       = Editor.or_else (get "Customers" (Editor.models (fst (page_loaded p s))))
           EmptyString) /\
  (forall ms s1,
     fetch_models s = (inr (Some ms), s1) ->
     snd (page_loaded p s) = s1 /\
     Editor.currentModel (fst (page_loaded p s)) = "Customers" /\
     Editor.models (fst (page_loaded p s)) = ms /\
     Editor.editor (fst (page_loaded p s))
       = Editor.or_else (get "Customers" ms)
           (Editor.or_else (get "Customers" modelDefinitions) EmptyString)).
Proof.
  assert (K : forall name,
             get name
               (fold_left
                  (fun m key =>
                     match get key modelDefinitions with
                     | Some text => assign key text m
                     | None => m
                     end) (keys modelDefinitions) (Editor.models p))
             = if String.eqb name "__proto__"
                  && negb (has name (Editor.models p))
               then None
               else match get name modelDefinitions with
                    | Some text => Some text
                    | None => get name (Editor.models p)
                    end).
  { intros name.
    assert (L : name <> "__proto__" \/ has name (Editor.models p) = true ->
                get name
                  (fold_left
                     (fun m key =>
                        match get key modelDefinitions with
                        | Some text => assign key text m
                        | None => m
                        end) (keys modelDefinitions) (Editor.models p))
                = match get name modelDefinitions with
                  | Some text => Some text
                  | None => get name (Editor.models p)
                  end).
    { intros O. rewrite get_fold_definitions by exact O.
      destruct (in_dec string_dec name (keys modelDefinitions)) as [I|I].
      - reflexivity.
      - apply get_None_iff in I. now rewrite I. }
    destruct (String.eqb_spec name "__proto__") as [->|N]; cbn [andb].
    - destruct (has "__proto__" (Editor.models p)) eqn:H; cbn [negb].
      + apply L. now right.
      + apply get_proto_fold_definitions. unfold has in H.
        destruct (get "__proto__" (Editor.models p));
          [discriminate | reflexivity].
    - apply L. now left. }
  assert (F : forall message s1,
             Editor.loadModelsFromServer toLocaleTimeString Server
               fetch_models p s = (inl message, p, s1) ->
             snd (page_loaded p s) = s1 /\
             Editor.currentModel (fst (page_loaded p s)) = "Customers" /\
             (forall name,
                get name (Editor.models (fst (page_loaded p s)))
                = if String.eqb name "__proto__"
                     && negb (has name (Editor.models p))
                  then None
                  else match get name modelDefinitions with
                       | Some text => Some text
                       | None => get name (Editor.models p)
                       end) /\
             Editor.editor (fst (page_loaded p s))
             = Editor.or_else
                 (get "Customers" (Editor.models (fst (page_loaded p s))))
                 EmptyString).
  { intros message s1 E. unfold Editor.DOMContentLoaded. rewrite E.
    cbn [fst snd].
    match goal with
    | |- context [Editor.addLog _ "warning" ?m true ?q] =>
        destruct (addLog_frame "warning" m true q) as (-> & -> & -> & _)
    end.
    match goal with
    | |- context [Editor.loadModel _ _ _ "Customers" ?q] =>
        destruct (loadModel_spec "Customers" q eq_refl) as (-> & -> & -> & _)
    end.
    cbn [Editor.models Editor.with_models].
    repeat split; [exact K|].
    rewrite (K "Customers"). cbn [String.eqb Ascii.eqb Bool.eqb andb].
    unfold Editor.or_else.
    destruct (get "Customers" modelDefinitions) as [text|];
      [destruct (truthy text) |]; reflexivity. }
  split.
  - intros s1 [[message E]|E].
    + apply (F message). unfold Editor.loadModelsFromServer. now rewrite E.
    + apply (F "Failed to load models from server").
      unfold Editor.loadModelsFromServer. now rewrite E.
  - intros ms s1 E. unfold Editor.DOMContentLoaded,
      Editor.loadModelsFromServer. rewrite E. cbn [fst snd].
    match goal with
    | |- context [Editor.addLog _ "info" ?m true ?q] =>
        destruct (addLog_frame "info" m true q) as (-> & -> & -> & _)
    end.
    match goal with
    | |- context [Editor.loadModel _ _ _ "Customers" ?q] =>
        destruct (loadModel_spec "Customers" q eq_refl) as (-> & -> & -> & _)
    end.
    match goal with
    | |- context [Editor.addLog _ "success" ?m true ?q] =>
        destruct (addLog_frame "success" m true q) as (_ & -> & _ & _)
    end.
    repeat split.
Qed.

End EditorProperties.

(** *** The page on this server *)

Section EditorOnServer.

Context `{RT : Runtime}.

#[local] Arguments JsObject.assign : simpl never.

Variable toLocaleTimeString : nat -> string.

Local Abbreviation validate_page := (Editor.validateModel toLocaleTimeString).
Local Abbreviation deployToCluster :=
  (Editor.deployToCluster toLocaleTimeString World
     Editor.server_models Editor.server_deploy).

Lemma deploy_response_cases (modelName code : string) (w : World) :
  (exists message steps,
     response_of (deploy modelName code w) = DeployOk message steps) \/
  (exists message, response_of (deploy modelName code w) = ServerError message).
Proof.
  unfold deploy, respond, response_of.
  destruct (deploy_steps modelName code w) as [[[e|steps] w1] t]; cbn;
    [right | left]; repeat eexists.
Qed.


End EditorOnServer.

(** ** Runs on concrete surroundings, continued *)

Import Examples.

Lemma delete_removes_the_listed_mount_witness :
  In (Exec (PatchRemoveMount 1) (inr "done"))
    (trace_of (@delete_model_handler widget_listed "Widget"
                 (two_models widget_listed tt))) /\
  exists yaml json mounts,
    In (Exec GetDeploymentYaml (inr yaml))
      (trace_of (@delete_model_handler widget_listed "Widget"
                   (two_models widget_listed tt))) /\
    includes (mountPath_of "Widget") yaml = true /\
    In (Exec GetDeploymentJson (inr json))
      (trace_of (@delete_model_handler widget_listed "Widget"
                   (two_models widget_listed tt))) /\
    @volumeMounts_of widget_listed json = inr mounts /\
    nth_error mounts 1 = Some (mountPath_of "Widget") /\
    (forall j, j < 1 -> nth_error mounts j <> Some (mountPath_of "Widget")).
Proof.
  assert (I : In (Exec (PatchRemoveMount 1) (inr "done"))
                (trace_of (@delete_model_handler widget_listed "Widget"
                             (two_models widget_listed tt))))
    by (cbn; tauto).
  split; [exact I|].
  exact (@delete_removes_the_listed_mount widget_listed "Widget" _ _ _ I).
Defined.

Lemma delete_without_listed_mount_witness :
  (In (Exec GetDeploymentJson
         (inr (description [["/cube/conf/cube.js"];
                            ["/cube/conf/model/Widget.js"]])))
     (trace_of (@delete_model_handler widget_on_sidecar "Widget"
                  (two_models widget_on_sidecar tt))) /\
   @volumeMounts_of widget_on_sidecar
     (description [["/cube/conf/cube.js"]; ["/cube/conf/model/Widget.js"]])
     = inr ["/cube/conf/cube.js"] /\
   (forall i r,
      ~ In (Exec (PatchRemoveMount i) r)
          (trace_of (@delete_model_handler widget_on_sidecar "Widget"
                       (two_models widget_on_sidecar tt)))) /\
   exists r,
     last_event (trace_of (@delete_model_handler widget_on_sidecar "Widget"
                             (two_models widget_on_sidecar tt)))
       = Some (Exec RolloutRestart r)) /\
  (@volumeMounts_of description_garbled garbled_description
     = inl "Unexpected token W in JSON at position 0" /\
   response_of (@delete_model_handler description_garbled "Widget"
                  (two_models description_garbled tt))
     = ServerError "Unexpected token W in JSON at position 0" /\
   last_event (trace_of (@delete_model_handler description_garbled "Widget"
                           (two_models description_garbled tt)))
     = Some (Exec GetDeploymentJson (inr garbled_description))).
Proof.
  assert (I : In (Exec GetDeploymentJson
                    (inr (description [["/cube/conf/cube.js"];
                                       ["/cube/conf/model/Widget.js"]])))
                (trace_of (@delete_model_handler widget_on_sidecar "Widget"
                             (two_models widget_on_sidecar tt))))
    by (cbn; tauto).
  assert (J : In (Exec GetDeploymentJson (inr garbled_description))
                (trace_of (@delete_model_handler description_garbled "Widget"
                             (two_models description_garbled tt))))
    by (cbn; tauto).
  assert (N : ~ In (mountPath_of "Widget") ["/cube/conf/cube.js"])
    by (intros [E|[]]; discriminate E).
  split.
  - split; [exact I | split; [reflexivity|]].
    destruct (@delete_without_listed_mount widget_on_sidecar "Widget" _ _ I)
      as [A _].
    exact (A ["/cube/conf/cube.js"] eq_refl N).
  - split; [reflexivity|].
    destruct (@delete_without_listed_mount description_garbled "Widget" _ _ J)
      as [_ B].
    exact (B "Unexpected token W in JSON at position 0" eq_refl).
Defined.

Lemma delete_of_unmounted_model_only_restarts_witness :
  after_query (trace_of (@delete_model_handler fresh_cluster "Widget"
                           (two_models fresh_cluster tt)))
    = Some (inr "volumeMounts: []", [Exec RolloutRestart (inr "done")]) /\
  includes (mountPath_of "Widget") "volumeMounts: []" = false /\
  exists r,
    [Exec RolloutRestart (inr "done")] = [Exec RolloutRestart r].
Proof.
  split; [reflexivity | split; [reflexivity|]].
  exact (@delete_of_unmounted_model_only_restarts fresh_cluster "Widget"
           "volumeMounts: []" [Exec RolloutRestart (inr "done")]
           (two_models fresh_cluster tt) eq_refl eq_refl).
Defined.

Lemma mutation_leaves_other_models_witness :
  "Orders" <> "Widget" /\
  get "Orders"
    (currentModels
       (world_after (@delete_model_handler fresh_cluster "Widget"
                       (two_models fresh_cluster tt))))
    = get "Orders" (currentModels (two_models fresh_cluster tt)).
Proof.
  assert (N : "Orders" <> "Widget") by discriminate.
  split; [exact N|].
  exact (proj1 (proj2 (@mutation_leaves_other_models fresh_cluster
                         "Widget" "Orders" widget_text
                         (two_models fresh_cluster tt) N))).
Defined.

Lemma restart_recovers_plain_models_witness :
  get "Orders"
    (currentModels
       (@startup fresh_cluster
          (file (world_after (@deploy fresh_cluster "Customers"
                                customers_text
                                (two_models fresh_cluster tt)))) tt))
  = get "Orders"
      (currentModels
         (world_after (@deploy fresh_cluster "Customers" customers_text
                         (two_models fresh_cluster tt)))).
Proof.
  apply (proj1 (@restart_recovers_plain_models fresh_cluster
                  (two_models fresh_cluster tt) tt)
           "Customers" customers_text _ _ eq_refl).
  intros name [<-|[<-|[<-|[]]]]; reflexivity.
Defined.

Lemma cluster_logs_are_the_lines_witness :
  exists lines,
    fst (@cluster_logs fresh_cluster (two_models fresh_cluster tt))
      = LogsOk lines /\
    String.concat (String line_feed EmptyString) lines = "done".
Proof.
  destruct (@cluster_logs_are_the_lines fresh_cluster
              (two_models fresh_cluster tt) "done" tt eq_refl)
    as (lines & A & B & _).
  exists lines. split; [exact A | exact B].
Defined.

Lemma stored_log_stays_within_100_witness :
  List.length (Editor.logs widget_page) <= 100 /\
  List.length
    (Editor.logs (Editor.addLog noon "info" "Validating model..." true
                    widget_page)) <= 100.
Proof.
  assert (B : List.length (Editor.logs widget_page) <= 100) by (cbn; lia).
  split; [exact B|].
  exact (proj1 (@stored_log_stays_within_100 fresh_cluster noon []
                  (fun _ => None) unit
                  (fun s => (inr (Some []), s))
                  (fun _ _ s => (inr (true, EmptyString), s))
                  (fun _ s => (inr (true, EmptyString), s))
                  widget_page B) "info" "Validating model..." true).
Defined.

Lemma invalid_model_is_not_sent_witness :
  fst (@Editor.validateModel fresh_cluster noon scribble_page) = false /\
  snd (@Editor.deployToCluster fresh_cluster noon World
         Editor.server_models Editor.server_deploy scribble_page
         (two_models fresh_cluster tt))
    = two_models fresh_cluster tt.
Proof.
  split; [reflexivity|].
  exact (proj1 (@invalid_model_is_not_sent fresh_cluster noon World
                  Editor.server_models Editor.server_deploy scribble_page
                  (two_models fresh_cluster tt) eq_refl)).
Defined.

Lemma deployment_outcome_is_not_logged_witness :
  fst (@Editor.validateModel fresh_cluster noon widget_page) = true /\
  List.length
    (Editor.logs
       (fst (@Editor.deployToCluster fresh_cluster noon World
               Editor.server_models Editor.server_deploy widget_page
               (two_models fresh_cluster tt)))) = 2 /\
  Editor.currentTab
    (fst (@Editor.deployToCluster fresh_cluster noon World
            Editor.server_models Editor.server_deploy widget_page
            (two_models fresh_cluster tt))) = "deployment".
Proof.
  split; [reflexivity|].
  destruct (@deployment_outcome_is_not_logged fresh_cluster noon World
              Editor.server_models Editor.server_deploy widget_page
              (two_models fresh_cluster tt) eq_refl) as [L T].
  split; [rewrite L; reflexivity | exact T].
Defined.



Lemma delete_of_absent_name_is_noop_witness :
  get "Widget" (currentModels (orders_only widget_listed tt)) = None /\
  trace_of (@delete_model_handler widget_listed "Widget"
              (orders_only widget_listed tt))
    = [MemDelete "Widget";
       FileWrite (configMap_of [("Orders", orders_text)]);
       Exec KubectlApply (inr "done");
       Exec GetDeploymentYaml (inr widget_yaml);
       Exec GetDeploymentJson
         (inr (description [["/cube/conf/cube.js";
                             "/cube/conf/model/Widget.js"]]));
       Exec (PatchRemoveMount 1) (inr "done");
       Exec RolloutRestart (inr "done")] /\
  currentModels
    (world_after (@delete_model_handler widget_listed "Widget"
                    (orders_only widget_listed tt)))
    = currentModels (orders_only widget_listed tt) /\
  response_of (@delete_model_handler widget_listed "Widget"
                 (orders_only widget_listed tt))
    = DeleteOk "Model Widget deleted successfully".
Proof.
  destruct (@delete_of_absent_name_is_noop widget_listed "Widget"
              (orders_only widget_listed tt) eq_refl) as [N R].
  split; [reflexivity | split; [reflexivity | split; [exact N|]]].
  apply R; [reflexivity | reflexivity |].
  intros json I. cbn in I.
  repeat (destruct I as [I|I]; [try discriminate I|]); [|contradiction].
  injection I as <-. eexists. reflexivity.
Defined.

Lemma new_model_passes_the_checks_witness :
  truthy "Sales" = true /\
  "Sales" <> "__proto__" /\
  Editor.editor
    (@Editor.createNewModel noon [] (fun _ => None)
       "Sales" "cube" "public.sales" widget_page)
    = Editor.cube_template "Sales" "public.sales" /\
  get "Sales"
    (Editor.models
       (@Editor.createNewModel noon [] (fun _ => None)
          "Sales" "cube" "public.sales" widget_page))
    = Some (Editor.cube_template "Sales" "public.sales") /\
  Editor.models
    (@Editor.createNewModel noon [] (fun _ => None)
       "__proto__" "cube" "public.sales" widget_page)
    = [].
Proof.
  assert (N : "Sales" <> "__proto__") by discriminate.
  split; [reflexivity | split; [exact N|]].
  destruct (@new_model_passes_the_checks fresh_cluster noon []
              (fun _ => None) "Sales" "cube" "public.sales" widget_page)
    as (A & _ & _).
  destruct (@new_model_passes_the_checks fresh_cluster noon []
              (fun _ => None) "__proto__" "cube" "public.sales" widget_page)
    as (_ & B & _).
  destruct (A eq_refl (fun _ => eq_refl) N)
    as (template & E & Ed & _ & G & _).
  subst template. split; [exact Ed | split; [exact G|]].
  exact (proj1 (B (fun _ => eq_refl) eq_refl)).
Defined.

Lemma get_model_spec_witness :
  response_of (get_model "constructor" (empty_process fresh_cluster tt))
    = MemberOk "constructor" /\
  response_of (get_model "Widget" (empty_process fresh_cluster tt))
    = NotFound "Model Widget not found".
Proof.
  split.
  - exact (proj1 (proj2 (proj2
             (@get_model_spec fresh_cluster "constructor"
                (empty_process fresh_cluster tt)))) eq_refl eq_refl).
  - exact (proj1 (proj2
             (@get_model_spec fresh_cluster "Widget"
                (empty_process fresh_cluster tt))) eq_refl eq_refl).
Defined.

Lemma get_after_mutation_witness :
  response_of
    (@deploy fresh_cluster "__proto__" widget_text
       (empty_process fresh_cluster tt))
    = DeployOk "Deployment successful"
        [("apply", "done"); ("restart", "done"); ("mount", "done");
         ("status", "done")] /\
  response_of
    (get_model "__proto__"
       (world_after (@deploy fresh_cluster "__proto__" widget_text
                       (empty_process fresh_cluster tt))))
    = MemberOk "__proto__" /\
  response_of
    (get_model "constructor"
       (world_after
          (@delete_model_handler fresh_cluster "constructor"
             (world_of fresh_cluster [("constructor", widget_text)]
                no_document tt))))
    = MemberOk "constructor".
Proof.
  split; [reflexivity | split].
  - exact (proj1 (@get_after_mutation fresh_cluster "__proto__" widget_text
                    (empty_process fresh_cluster tt))).
  - exact (proj2 (@get_after_mutation fresh_cluster "constructor" widget_text
                    (world_of fresh_cluster [("constructor", widget_text)]
                       no_document tt))).
Defined.

Lemma redeploy_overwrites_in_place_witness :
  currentModels
    (world_after (@deploy fresh_cluster "__proto__" widget_text
                    (two_models fresh_cluster tt)))
    = currentModels (two_models fresh_cluster tt) /\
  List.length
    (currentModels
       (world_after (@deploy fresh_cluster "Customers" customers_text
                       (two_models fresh_cluster tt)))) = 3.
Proof.
  destruct (@redeploy_overwrites_in_place fresh_cluster "__proto__"
              widget_text (two_models fresh_cluster tt)) as (_ & _ & P & _).
  destruct (@redeploy_overwrites_in_place fresh_cluster "Customers"
              customers_text (two_models fresh_cluster tt)) as (_ & A & _).
  split; [exact (P eq_refl eq_refl)|].
  exact (proj1 (A eq_refl ltac:(discriminate))).
Defined.

Lemma proto_is_never_tracked_witness :
  response_of
    (@deploy fresh_cluster "__proto__" widget_text
       (@startup fresh_cluster document_at_startup tt))
    = DeployOk "Deployment successful"
        [("apply", "done"); ("restart", "done"); ("mount", "done");
         ("status", "done")] /\
  currentModels
    (world_after (@deploy fresh_cluster "__proto__" widget_text
                    (@startup fresh_cluster document_at_startup tt)))
    = [("Orders", orders_text); ("Customers", customers_text)] /\
  persisted_text "__proto__"
    (file (world_after (@deploy fresh_cluster "__proto__" widget_text
                          (@startup fresh_cluster document_at_startup tt))))
    = None.
Proof.
  destruct (@proto_is_never_tracked fresh_cluster document_at_startup tt []
              widget_text) as (_ & M & P & _).
  split; [reflexivity | split; [exact M|]].
  exact (proj1 (P _ _ eq_refl)).
Defined.
